(** * Pshopi: Shopify order webhook to SMS notification

    A shallow embedding of the webhook handlers of the repository and the
    properties of their request pipeline.  The repository holds four
    revisions of the same serverless function:

    - [ApiV1]   : api/index.js, first document  (lines 1-207);
    - [ApiV2]   : api/index.js, second document (lines 209-337);
    - [Part000] : the handler file without a session counter;
    - [Counter] : index.js, the handler with the module-level [sentCount].

    Every handler is an [async] function over the Node.js runtime.  The
    runtime (environment variables, crypto, JSON decoding, the two upstream
    HTTP services) is a record [World]; a handler is a function of the
    world and the request in a state-and-exception monad whose state holds
    the trace of the effects performed so far. *)

From Stdlib Require Import ZArith List String Ascii Bool Lia DecimalString.
From Stdlib Require Import Strings.Byte.
Import ListNotations.
Local Open Scope string_scope.
Local Open Scope Z_scope.
#[local] Set Warnings "-register-all".

(** ** JavaScript values and the operations the handlers apply to them *)

Module JS.

(** Values: the JSON trees [JSON.parse] and axios deliver, [undefined],
    [NaN] (which subtraction can produce) and the members every object
    literal inherits from [Object.prototype].  Numbers are modelled by
    their integer values: quota counts, order numbers and identifiers. *)
Inductive value : Type :=
| VUndefined
| VNull
| VBool (b : bool)
| VNum (z : Z)
| VNaN
| VStr (s : string)
| VArr (items : list value)
| VObj (props : list (string * value))
| VNative (name : string).

(** Thrown values: every one is an [Error] object; only the class and the
    message are kept. *)
Inductive exn : Type :=
| Error (message : string)
| TypeError (message : string)
| RangeError (message : string)
| SyntaxError (message : string)
| ReferenceError (message : string)
| AxiosError (message : string).

Definition message (e : exn) : string :=
  match e with
  | Error m | TypeError m | RangeError m | SyntaxError m
  | ReferenceError m | AxiosError m => m
  end.

(** The completion of an expression: a value or a throw. *)
Inductive completion (A : Type) : Type :=
| Normal (a : A)
| Throw (e : exn).
Arguments Normal {A} a.
Arguments Throw {A} e.

Definition bindC {A B} (c : completion A) (k : A -> completion B) : completion B :=
  match c with
  | Normal a => k a
  | Throw e => Throw e
  end.

Notation "'let!' x ':=' c 'in' k" := (bindC c (fun x => k))
  (at level 10, x name, c at level 100, k at level 200).

(** [!!v] *)
Definition truthy (v : value) : bool :=
  match v with
  | VUndefined | VNull | VNaN => false
  | VBool b => b
  | VNum z => negb (z =? 0)
  | VStr s => negb (s =? "")%string
  | VArr _ | VObj _ | VNative _ => true
  end.

Definition nullish (v : value) : bool :=
  match v with
  | VUndefined | VNull => true
  | _ => false
  end.

(** [a || b], with [b] evaluated only when [a] is falsy. *)
Definition or_else (a : value) (b : completion value) : completion value :=
  if truthy a then Normal a else b.

Fixpoint assoc (k : string) (props : list (string * value)) : option value :=
  match props with
  | [] => None
  | (k', v) :: rest => if (k' =? k)%string then Some v else assoc k rest
  end.

(** The property names of [Object.prototype] (ECMAScript 20.1.3 and
    Annex B.2.2). *)
Definition object_prototype_keys : list string :=
  [ "constructor"; "hasOwnProperty"; "isPrototypeOf"; "propertyIsEnumerable";
    "toLocaleString"; "toString"; "valueOf"; "__proto__";
    "__defineGetter__"; "__defineSetter__"; "__lookupGetter__";
    "__lookupSetter__" ].

Definition mem_string (k : string) (ks : list string) : bool :=
  existsb (fun k' => (k' =? k)%string) ks.

(** [o[k]] on a value that is neither [null] nor [undefined].  An object
    answers with its own property, else with the member it inherits from
    [Object.prototype]; on the other values the result is given for the
    property names the handlers use, none of which their prototypes
    define. *)
Definition get (o : value) (k : string) : value :=
  match o with
  | VObj props =>
      match assoc k props with
      | Some v => v
      | None => if mem_string k object_prototype_keys then VNative k else VUndefined
      end
  | _ => VUndefined
  end.

(** [o[k]] and [o.k]: a [TypeError] on [null] and [undefined]. *)
Definition GetV (o : value) (k : string) : completion value :=
  if nullish o
  then Throw (TypeError ("Cannot read properties of " ++
                         (match o with VNull => "null" | _ => "undefined" end) ++
                         " (reading '" ++ k ++ "')"))
  else Normal (get o k).

(** [o?.[k]] and [o?.k] *)
Definition OptGet (o : value) (k : string) : completion value :=
  if nullish o then Normal VUndefined else GetV o k.

Definition Z_to_string (z : Z) : string :=
  NilZero.string_of_int (Z.to_int z).

(** [String(v)], as template literals and [RegExp.prototype.test] apply
    it.  An integer prints in plain decimal, as JavaScript prints those
    below 10^21 in absolute value. *)
Fixpoint ToString (v : value) : string :=
  match v with
  | VUndefined => "undefined"
  | VNull => "null"
  | VBool true => "true"
  | VBool false => "false"
  | VNum z => Z_to_string z
  | VNaN => "NaN"
  | VStr s => s
  | VArr items =>
      (fix join (xs : list value) : string :=
         match xs with
         | [] => ""
         | x :: rest =>
             (if nullish x then "" else ToString x) ++
             (match rest with [] => "" | _ => "," ++ join rest end)
         end) items
  | VObj _ => "[object Object]"
  | VNative "__proto__" => "[object Object]"
  | VNative "constructor" => "function Object() { [native code] }"
  | VNative name => "function " ++ name ++ "() { [native code] }"
  end.

(** Numbers as the arithmetic of the handlers sees them. *)
Inductive number : Type :=
| NaN
| Num (z : Z).

Definition is_space (c : ascii) : bool :=
  let n := nat_of_ascii c in
  ((n =? 32) || (n =? 9) || (n =? 10) || (n =? 11) || (n =? 12) || (n =? 13))%nat.

Definition is_digit (c : ascii) : bool :=
  let n := nat_of_ascii c in ((48 <=? n) && (n <=? 57))%nat.

Fixpoint drop_spaces (s : string) : string :=
  match s with
  | String c rest => if is_space c then drop_spaces rest else s
  | EmptyString => s
  end.

Definition rev_string (s : string) : string :=
  string_of_list_ascii (rev (list_ascii_of_string s)).

Definition trim (s : string) : string :=
  rev_string (drop_spaces (rev_string (drop_spaces s))).

Fixpoint digits_value (acc : Z) (s : string) : option Z :=
  match s with
  | EmptyString => Some acc
  | String c rest =>
      if is_digit c
      then digits_value (10 * acc + (Z.of_nat (nat_of_ascii c) - 48)) rest
      else None
  end.

Definition unsigned_value (s : string) : number :=
  match s with
  | EmptyString => NaN
  | _ => match digits_value 0 s with Some z => Num z | None => NaN end
  end.

(** [Number(s)] on a string, for the integer model: blank text is [0], an
    optionally signed run of decimal digits is its value.  Text that is no
    number at all is [NaN]; literals with a fraction, an exponent or a
    radix prefix denote numbers outside the model and no statement below
    converts one. *)
Definition StringToNumber (s : string) : number :=
  match trim s with
  | EmptyString => Num 0
  | String "+" rest => unsigned_value rest
  | String "-" rest =>
      match unsigned_value rest with Num z => Num (- z) | NaN => NaN end
  | t => unsigned_value t
  end.

(** [Number(v)] *)
Definition ToNumber (v : value) : number :=
  match v with
  | VUndefined | VNaN => NaN
  | VNull => Num 0
  | VBool b => Num (if b then 1 else 0)
  | VNum z => Num z
  | VStr s => StringToNumber s
  | VArr _ | VObj _ | VNative _ => StringToNumber (ToString v)
  end.

Definition of_number (n : number) : value :=
  match n with
  | NaN => VNaN
  | Num z => VNum z
  end.

(** [v <= 0] *)
Definition le_zero (v : value) : bool :=
  match ToNumber v with
  | Num z => z <=? 0
  | NaN => false
  end.

(** [v - 1] *)
Definition minus_one (v : value) : value :=
  match ToNumber v with
  | Num z => VNum (z - 1)
  | NaN => VNaN
  end.

(** [typeof v === "number"] *)
Definition is_number (v : value) : bool :=
  match v with
  | VNum _ | VNaN => true
  | _ => false
  end.

(** [v === s] for a string literal [s] *)
Definition is_string (v : value) (s : string) : bool :=
  match v with
  | VStr t => (t =? s)%string
  | _ => false
  end.

(** [s.split(sep)] for a one-character separator *)
Fixpoint split (sep : ascii) (s : string) : list string :=
  match s with
  | EmptyString => [EmptyString]
  | String c rest =>
      if Ascii.eqb c sep then EmptyString :: split sep rest
      else match split sep rest with
           | w :: ws => String c w :: ws
           | [] => [String c EmptyString]
           end
  end.

(** [xs.reduce(f, init)] with a callback that may throw *)
Fixpoint reduce {A B} (f : A -> B -> completion A) (xs : list B) (init : A)
  : completion A :=
  match xs with
  | [] => Normal init
  | x :: rest => let! acc := f init x in reduce f rest acc
  end.


End JS.
Export JS.

(** ** The Node.js runtime and the outside world *)

Module Node.

Definition bytes : Type := list byte.

(** What [await axios.post(url, body)] gives: a rejection (transport
    failure, a status outside 2xx), or a response whose [data] is the
    decoded body. *)
Inductive axios_reply : Type :=
| Rejected (message : string)
| Resolved (data : value).

(** The request body as a stream: it ends after delivering its chunks, or
    it emits [error]. *)
Inductive stream : Type :=
| StreamEnd (chunks : bytes)
| StreamError (message : string).

Record Request : Type := {
  method : string;
  headers : string -> option string;
  body : stream
}.

Record Response : Type := {
  status : Z;
  json : value
}.

(** Everything a handler reads from outside its own code during one
    request. *)
Record World : Type := {
  (** [process.env] *)
  env : string -> option string;
  (** [crypto.createHmac("sha256", key).update(data).digest()] *)
  hmac_sha256 : string -> bytes -> bytes;
  (** [buffer.toString("base64")] and [Buffer.from(text, "base64")] *)
  base64_encode : bytes -> string;
  base64_decode : string -> bytes;
  (** [JSON.parse(buffer.toString("utf8"))]: the tree, or the message of
      the [SyntaxError] *)
  JSON_parse : bytes -> string + value;
  (** [crypto.randomUUID()] *)
  randomUUID : string;
  (** the credit service's and the SMS gateway's answer to this request *)
  credit_service : axios_reply;
  sms_gateway : axios_reply;
  (** [JSON.stringify(v)] inside a template literal *)
  JSON_stringify : value -> string;
  (** [error.stack] *)
  stack : exn -> string
}.

(** [process.env.NAME] as a value *)
Definition env_value (w : World) (name : string) : value :=
  match env w name with
  | Some s => VStr s
  | None => VUndefined
  end.

(** [req.headers[name]] as a value *)
Definition header (req : Request) (name : string) : value :=
  match headers req name with
  | Some s => VStr s
  | None => VUndefined
  end.

(** The JSON body handed to the SMS gateway. *)
Record SmsPayload : Type := {
  UserName : value;
  Password : value;
  SMSText : value;
  SMSLang : string;
  SMSSender : value;
  SMSReceiver : value;
  SMSID : string
}.

(** The effects of a handler that the properties speak about. *)
Inductive event : Type :=
| EvReadBody
| EvJsonParse
| EvCreditPost (UserName Password : value)
| EvSmsPost (payload : SmsPayload).

(** A call to the credit service. *)
Definition is_credit_post (e : event) : bool :=
  match e with EvCreditPost _ _ => true | _ => false end.

(** The calls to the SMS gateway in a trace, in order. *)
Definition dispatches (tr : list event) : list SmsPayload :=
  flat_map (fun e => match e with EvSmsPost p => [p] | _ => [] end) tr.

(** [Buffer.from(v, "base64")]: never fails on a string, whatever its
    characters; a [TypeError] on [undefined] and the other values a header
    lookup cannot give. *)
Definition Buffer_from_base64 (w : World) (v : value) : completion bytes :=
  match v with
  | VStr s => Normal (base64_decode w s)
  | _ => Throw (TypeError "The first argument must be of type string")
  end.

(** [crypto.timingSafeEqual(a, b)] *)
Definition timingSafeEqual (a b : bytes) : completion bool :=
  if (List.length a =? List.length b)%nat
  then Normal (if list_eq_dec Byte.byte_eq_dec a b then true else false)
  else Throw (RangeError "Input buffers must have the same byte length").

(** [crypto.createHmac("sha256", key)], [key] being [process.env.X]: a
    [TypeError] when the variable is not set. *)
Definition createHmac (w : World) (key : option string) (data : bytes)
  : completion bytes :=
  match key with
  | Some k => Normal (hmac_sha256 w k data)
  | None => Throw (TypeError "The key argument must be of type string")
  end.

End Node.
Export Node.

(** ** Computations: state, exceptions, try/catch *)

Module Async.

Section Monad.
Context {S : Type}.

Definition M (A : Type) : Type := S -> completion A * S.

Definition ret {A} (a : A) : M A := fun s => (Normal a, s).

Definition bind {A B} (m : M A) (k : A -> M B) : M B :=
  fun s => match m s with
           | (Normal a, s') => k a s'
           | (Throw e, s') => (Throw e, s')
           end.

Definition throw {A} (e : exn) : M A := fun s => (Throw e, s).

Definition lift {A} (c : completion A) : M A := fun s => (c, s).

(** [try { m } catch (error) { h error }] *)
Definition try_catch {A} (m : M A) (h : exn -> M A) : M A :=
  fun s => match m s with
           | (Normal a, s') => (Normal a, s')
           | (Throw e, s') => h e s'
           end.
End Monad.
Arguments M : clear implicits.

End Async.
Export Async.

Notation "x <- m ;; k" := (bind m (fun x => k))
  (at level 61, m at next level, right associativity).
Notation "m ;;; k" := (bind m (fun _ => k))
  (at level 61, right associativity).

(** ** Effects shared by the handlers *)

Module Effects.

(** A state that keeps the trace of effects. *)
Class Traced (S : Type) : Type := log : event -> S -> S.

#[export] Instance traced_trace : Traced (list event) :=
  fun e tr => (tr ++ [e])%list.

Section WithState.
Context {S : Type} `{Traced S}.

Definition emit (e : event) : M S unit := fun s => (Normal tt, log e s).

(** [new Promise((resolve, reject) => { req.on("data", ...);
    req.on("end", () => resolve(Buffer.concat(chunks)));
    req.on("error", reject) })] *)
Definition read_stream (req : Request) : M S bytes :=
  emit EvReadBody ;;;
  match body req with
  | StreamEnd chunks => ret chunks
  | StreamError m => throw (Error m)
  end.

(** [JSON.parse(rawBody.toString("utf8"))] *)
Definition parse_json (w : World) (rawBody : bytes) : M S value :=
  emit EvJsonParse ;;;
  match JSON_parse w rawBody with
  | inr v => ret v
  | inl m => throw (SyntaxError m)
  end.

(** [(await axios.post(process.env.CHECK_CREDIT_URL, {UserName, Password})).data] *)
Definition post_credit (w : World) (user pass : value) : M S value :=
  emit (EvCreditPost user pass) ;;;
  match credit_service w with
  | Resolved data => ret data
  | Rejected m => throw (AxiosError m)
  end.

(** [(await axios.post(process.env.SMS_API_URL, payload)).data] *)
Definition post_sms (w : World) (payload : SmsPayload) : M S value :=
  emit (EvSmsPost payload) ;;;
  match sms_gateway w with
  | Resolved data => ret data
  | Rejected m => throw (AxiosError m)
  end.
End WithState.

(** [res.status(code).json(obj)] *)
Definition respond (code : Z) (obj : list (string * value)) : Response :=
  {| status := code; json := VObj obj |}.

(** [/^\+?[0-9]{8,15}$/.test(s)] *)
Definition phoneRegex_test (s : string) : bool :=
  let digits := match s with String "+" rest => rest | _ => s end in
  forallb is_digit (list_ascii_of_string digits)
  && (8 <=? String.length digits)%nat && (String.length digits <=? 15)%nat.

End Effects.
Export Effects.

(** ** api/index.js, first document *)

Module ApiV1.

Definition St : Type := list event.

Definition requiredHeaders : list string :=
  [ "x-shopify-topic"; "x-shopify-shop-domain"; "x-shopify-hmac-sha256" ].

Definition verifyHmac (w : World) (hmacHeader : value) (body : bytes)
  : completion bool :=
  match
    (let secret := env w "SHOPIFY_WEBHOOK_SECRET" in
     if negb (truthy (env_value w "SHOPIFY_WEBHOOK_SECRET"))
     then Throw (Error "SHOPIFY_WEBHOOK_SECRET غير موجود")
     else
       let! digest := createHmac w secret body in
       let generatedHash := base64_encode w digest in
       let! given := Buffer_from_base64 w hmacHeader in
       timingSafeEqual (base64_decode w generatedHash) given)
  with
  | Normal b => Normal b
  | Throw error => Normal false
  end.

Definition getRawBody (req : Request) : M St bytes := read_stream req.

Definition isValidPhone (phone : value) : bool :=
  phoneRegex_test (ToString phone).

Definition phonePaths : list string :=
  [ "customer.phone";
    "order.customer.phone";
    "checkout.billing_address.phone";
    "billing_address.phone";
    "shipping_address.phone" ].

(** The [for ... of] loop over the paths. *)
Fixpoint extractPhoneNumber_loop (paths : list string) (data : value)
  : completion value :=
  match paths with
  | [] => Normal VNull
  | path :: rest =>
      let! v := reduce (fun obj key => OptGet obj key) (split "." path) data in
      if truthy v && isValidPhone v then Normal v
      else extractPhoneNumber_loop rest data
  end.

Definition extractPhoneNumber (data : value) : completion value :=
  extractPhoneNumber_loop phonePaths data.

(** [data.order?.field] *)
Definition order_field (data : value) (field : string) : completion value :=
  let! order := GetV data "order" in OptGet order field.

Definition createNotificationMessage (w : World) (eventType data : value)
  : completion value :=
  let! n1 := order_field data "order_number" in
  let! n2 := order_field data "order_number" in
  let! contact := or_else (env_value w "STORE_PHONE") (Normal (VStr "")) in
  let! n3 := order_field data "order_number" in
  let! f3 := order_field data "financial_status" in
  let! n4 := order_field data "order_number" in
  let! n5 := order_field data "order_number" in
  let templates := VObj
    [ ("orders/create",
        VStr ("📦 تم تأكيد طلبك #" ++ ToString n1 ++ "! شكراً لثقتك"));
      ("orders/cancelled",
        VStr ("⚠️ إلغاء الطلب #" ++ ToString n2 ++ "، للاستفسار: " ++ ToString contact));
      ("orders/updated",
        VStr ("🔄 تحديث حالة الطلب #" ++ ToString n3 ++ ": " ++ ToString f3));
      ("orders/paid", VStr ("💳 تم دفع طلبك #" ++ ToString n4));
      ("orders/fulfilled", VStr ("🚚 تم شحن طلبك #" ++ ToString n5)) ] in
  let! found := GetV templates (ToString eventType) in
  or_else found (Normal VNull).

Definition checkCredit (w : World) : M St value :=
  try_catch
    (data <- post_credit w (env_value w "SMS_USERNAME") (env_value w "SMS_PASSWORD") ;;
     if negb (is_number data)
     then throw (Error "استجابة غير صالحة من خدمة الرسائل")
     else ret data)
    (fun error => throw (Error "فشل التحقق من الرصيد")).

Definition sendSMS (w : World) (phoneNumber message : value) : M St value :=
  try_catch
    (let payload :=
       {| UserName := env_value w "SMS_USERNAME";
          Password := env_value w "SMS_PASSWORD";
          SMSText := message;
          SMSLang := "ar";
          SMSSender := env_value w "SMS_SENDER";
          SMSReceiver := phoneNumber;
          SMSID := randomUUID w |} in
     data <- post_sms w payload ;;
     st <- lift (OptGet data "Status") ;;
     if negb (is_string st "Success")
     then throw (Error (JSON_stringify w data))
     else ret data)
    (fun error => throw (Error "فشل إرسال الرسالة")).

(** [module.exports = async (req, res) => { ... }] *)
Definition handler (w : World) (req : Request) : M St Response :=
  try_catch
    (if negb (method req =? "POST")%string then
       ret (respond 405 [("error", VStr "الطريقة غير مسموحة")])
     else
       let missingHeaders :=
         filter (fun h => negb (truthy (header req h))) requiredHeaders in
       if (0 <? List.length missingHeaders)%nat then
         ret (respond 401 [("error", VStr "هيدرات مطلوبة مفقودة")])
       else
         rawBody <- getRawBody req ;;
         isValidHmac <- lift (verifyHmac w (header req "x-shopify-hmac-sha256") rawBody) ;;
         if negb isValidHmac then
           ret (respond 401 [("error", VStr "توقيع غير صالح")])
         else
           webhookData <- parse_json w rawBody ;;
           phone <- lift (extractPhoneNumber webhookData) ;;
           if negb (truthy phone) then
             ret (respond 400 [("error", VStr "رقم الهاتف غير موجود")])
           else
             remainingQuota <- checkCredit w ;;
             if le_zero remainingQuota then
               ret (respond 402 [("error", VStr "نفاد الحصة المسموحة")])
             else
               message <- lift (createNotificationMessage w
                                  (header req "x-shopify-topic") webhookData) ;;
               if negb (truthy message) then
                 ret (respond 400 [("error", VStr "نوع الحدث غير مدعوم")])
               else
                 smsResponse <- sendSMS w phone message ;;
                 sms_id <- lift (GetV smsResponse "SMSID") ;;
                 ret (respond 200
                        [ ("success", VBool true);
                          ("message", VStr "تم إرسال الرسالة بنجاح");
                          ("remaining_quota", minus_one remainingQuota);
                          ("sms_id", sms_id) ]))
    (fun error =>
       ret (respond 500
              ([ ("error", VStr "خطأ داخلي");
                 ("details", VStr (message error)) ] ++
               (if is_string (env_value w "NODE_ENV") "development"
                then [("stack", VStr (stack w error))]
                else []))%list)).

End ApiV1.

(** ** api/index.js, second document *)

Module ApiV2.

Definition St : Type := list event.

Definition verifyHmac (w : World) (hmac : value) (body : bytes)
  : completion bool :=
  let secret := env w "SHOPIFY_WEBHOOK_SECRET" in
  let! digest := createHmac w secret body in
  let hash := base64_encode w digest in
  let! given := Buffer_from_base64 w hmac in
  timingSafeEqual (base64_decode w hash) given.

Definition getRawBody (req : Request) : M St bytes := read_stream req.

(** [data?.a?.phone] and [data?.a?.b?.phone] *)
Definition chain (data : value) (path : list string) : completion value :=
  reduce OptGet path data.

Definition extractPhoneNumber (data : value) : completion value :=
  let! p1 := chain data ["customer"; "phone"] in
  or_else p1 (
  let! p2 := chain data ["order"; "customer"; "phone"] in
  or_else p2 (
  let! p3 := chain data ["checkout"; "billing_address"; "phone"] in
  or_else p3 (
  let! p4 := chain data ["billing_address"; "phone"] in
  or_else p4 (
  let! p5 := chain data ["shipping_address"; "phone"] in
  or_else p5 (Normal VNull))))).

Definition createMessage (w : World) (topic data : value) : completion value :=
  let! order := GetV data "order" in
  let! number := OptGet order "order_number" in
  let! orderNumber := or_else number (Normal (VStr "بدون رقم")) in
  let! contact := or_else (env_value w "STORE_PHONE") (Normal (VStr "")) in
  let templates := VObj
    [ ("orders/create",
        VStr ("📦 تم تأكيد طلبك #" ++ ToString orderNumber ++ "! شكراً لك."));
      ("orders/cancelled",
        VStr ("⚠️ تم إلغاء طلبك #" ++ ToString orderNumber ++ ". للتواصل: "
              ++ ToString contact));
      ("orders/updated",
        VStr ("🔄 تم تحديث حالة الطلب #" ++ ToString orderNumber ++ "."));
      ("orders/fulfilled", VStr ("🚚 تم شحن طلبك #" ++ ToString orderNumber ++ "."));
      ("orders/paid", VStr ("💳 تم دفع طلبك #" ++ ToString orderNumber ++ ".")) ] in
  let! found := GetV templates (ToString topic) in
  or_else found (Normal VNull).

Definition checkCredit (w : World) : M St value :=
  data <- post_credit w (env_value w "SMS_USERNAME") (env_value w "SMS_PASSWORD") ;;
  if negb (is_number data) then throw (Error "Invalid credit response")
  else ret data.

Definition sendSMS (w : World) (phone message : value) : M St value :=
  let payload :=
    {| UserName := env_value w "SMS_USERNAME";
       Password := env_value w "SMS_PASSWORD";
       SMSText := message;
       SMSLang := "ar";
       SMSSender := env_value w "SMS_SENDER";
       SMSReceiver := phone;
       SMSID := randomUUID w |} in
  data <- post_sms w payload ;;
  st <- lift (OptGet data "Status") ;;
  if negb (is_string st "Success") then throw (Error "SMS sending failed")
  else ret data.

Definition handler (w : World) (req : Request) : M St Response :=
  try_catch
    (if negb (method req =? "POST")%string then
       ret (respond 405 [("error", VStr "Method Not Allowed")])
     else
       let hmacHeader := header req "x-shopify-hmac-sha256" in
       let topic := header req "x-shopify-topic" in
       let domain := header req "x-shopify-shop-domain" in
       if negb (truthy hmacHeader) || negb (truthy topic) || negb (truthy domain) then
         ret (respond 401 [("error", VStr "Missing required headers")])
       else
         rawBody <- getRawBody req ;;
         isValid <- lift (verifyHmac w hmacHeader rawBody) ;;
         if negb isValid then
           ret (respond 401 [("error", VStr "Invalid HMAC signature")])
         else
           data <- parse_json w rawBody ;;
           phone <- lift (extractPhoneNumber data) ;;
           if negb (truthy phone) then
             ret (respond 400 [("error", VStr "Phone number not found")])
           else
             remaining <- checkCredit w ;;
             if le_zero remaining then
               ret (respond 402 [("error", VStr "SMS quota exceeded")])
             else
               message <- lift (createMessage w topic data) ;;
               if negb (truthy message) then
                 ret (respond 400 [("error", VStr "Unsupported event type")])
               else
                 smsResult <- sendSMS w phone message ;;
                 sms_id <- lift (GetV smsResult "SMSID") ;;
                 ret (respond 200
                        [ ("success", VBool true);
                          ("sms_id", sms_id);
                          ("remaining_quota", minus_one remaining) ]))
    (fun err =>
       ret (respond 500
              [ ("error", VStr "Internal Server Error");
                ("message", VStr (message err)) ])).

End ApiV2.

(** ** The handler file without a session counter *)

Module Part000.

Definition St : Type := list event.

Definition verifyHmac (w : World) (hmacHeader : value) (body : bytes)
  : completion bool :=
  let secret := env w "SHOPIFY_WEBHOOK_SECRET" in
  let! digest := createHmac w secret body in
  let generatedHash := base64_encode w digest in
  let! given := Buffer_from_base64 w hmacHeader in
  timingSafeEqual (base64_decode w generatedHash) given.

Definition getRawBody (req : Request) : M St bytes := read_stream req.

Definition chain (data : value) (path : list string) : completion value :=
  reduce OptGet path data.

Definition extractPhoneNumber (data : value) : completion value :=
  let! p1 := chain data ["customer"; "phone"] in
  or_else p1 (
  let! p2 := chain data ["order"; "customer"; "phone"] in
  or_else p2 (
  chain data ["checkout"; "billing_address"; "phone"])).

Definition createNotificationMessage (w : World) (eventType data : value)
  : completion value :=
  let! order := GetV data "order" in
  let! number := OptGet order "order_number" in
  let! orderNumber := or_else number (Normal (VStr "N/A")) in
  let! order' := GetV data "order" in
  let! financial_status := OptGet order' "financial_status" in
  let messages := VObj
    [ ("orders/create",
        VStr ("📦 تم تأكيد طلبك #" ++ ToString orderNumber ++ "! شكراً لاختيارك متجرنا"));
      ("orders/cancelled",
        VStr ("⚠️ نأسف لإلغاء طلبك #" ++ ToString orderNumber ++ ". للاستفسار: "
              ++ ToString (env_value w "STORE_CONTACT")));
      ("orders/updated",
        VStr ("🔄 تم تحديث حالة طلبك #" ++ ToString orderNumber ++ " إلى: "
              ++ ToString financial_status)) ] in
  GetV messages (ToString eventType).

Definition checkCredit (w : World) : M St value :=
  try_catch
    (data <- post_credit w (env_value w "SMS_USERNAME") (env_value w "SMS_PASSWORD") ;;
     match data with
     | VNum (-5) => throw (Error "الحصة نفذت")
     | _ => ret data
     end)
    (fun error => throw (Error ("فشل التحقق من الرصيد: " ++ message error))).

Definition sendSMS (w : World) (phoneNumber message : value) : M St value :=
  let payload :=
    {| UserName := env_value w "SMS_USERNAME";
       Password := env_value w "SMS_PASSWORD";
       SMSText := message;
       SMSLang := "ar";
       SMSSender := env_value w "SMS_SENDER";
       SMSReceiver := phoneNumber;
       SMSID := randomUUID w |} in
  data <- post_sms w payload ;;
  st <- lift (OptGet data "Status") ;;
  if negb (is_string st "Success")
  then throw (Error ("فشل إرسال الرسالة: " ++ JSON_stringify w data))
  else ret VUndefined.

Definition handler (w : World) (req : Request) : M St Response :=
  try_catch
    (if negb (method req =? "POST")%string then
       ret (respond 405 [("error", VStr "Method Not Allowed")])
     else
       let eventType := header req "x-shopify-topic" in
       let shopDomain := header req "x-shopify-shop-domain" in
       let hmacHeader := header req "x-shopify-hmac-sha256" in
       if negb (truthy eventType) || negb (truthy shopDomain) || negb (truthy hmacHeader) then
         ret (respond 401 [("error", VStr "Missing required headers")])
       else
         rawBody <- getRawBody req ;;
         valid <- lift (verifyHmac w hmacHeader rawBody) ;;
         if negb valid then
           ret (respond 401 [("error", VStr "Invalid HMAC signature")])
         else
           webhookData <- parse_json w rawBody ;;
           phone <- lift (extractPhoneNumber webhookData) ;;
           if negb (truthy phone) then
             ret (respond 400 [("error", VStr "Phone number not found")])
           else
             remainingQuota <- checkCredit w ;;
             if le_zero remainingQuota then
               ret (respond 402 [("error", VStr "SMS quota exceeded")])
             else
               message <- lift (createNotificationMessage w eventType webhookData) ;;
               if negb (truthy message) then
                 ret (respond 400 [("error", VStr "Unsupported event type")])
               else
                 sendSMS w phone message ;;;
                 ret (respond 200
                        [ ("success", VBool true);
                          ("message", VStr "SMS sent successfully");
                          ("remaining_quota", minus_one remainingQuota) ]))
    (fun error =>
       ret (respond 500
              [ ("error", VStr "Internal Server Error");
                ("details", VStr (message error)) ])).

End Part000.

(** ** index.js: the handler with the session counter *)

Module Counter.

(** The module-level [let sentCount = 0] lives as long as the process;
    the trace is kept beside it. *)
Record St : Type := {
  sentCount : Z;
  trace : list event
}.

#[export] Instance traced_St : Traced St :=
  fun e s => {| sentCount := sentCount s; trace := (trace s ++ [e])%list |}.

Definition initial : St := {| sentCount := 0; trace := [] |}.

Definition MAX_QUOTA : Z := 10.

Definition read_sentCount : M St Z := fun s => (Normal (sentCount s), s).

(** [sentCount++] *)
Definition increment_sentCount : M St unit :=
  fun s => (Normal tt, {| sentCount := sentCount s + 1; trace := trace s |}).

Definition checkCredit (w : World) : M St value :=
  try_catch
    (data <- post_credit w (env_value w "SMS_USERNAME") (env_value w "SMS_PASSWORD") ;;
     match data with
     | VNum (-5) => throw (Error "الحصة نفذت")
     | _ => ret data
     end)
    (fun error => throw error).

Definition sendSMS (w : World) (phoneNumber message : value) : M St value :=
  n <- read_sentCount ;;
  if MAX_QUOTA <=? n then throw (Error "لقد وصلت إلى الحد الأقصى للرسائل")
  else
    let payload :=
      {| UserName := env_value w "SMS_USERNAME";
         Password := env_value w "SMS_PASSWORD";
         SMSText := message;
         SMSLang := "ar";
         SMSSender := env_value w "SMS_SENDER";
         SMSReceiver := phoneNumber;
         SMSID := randomUUID w |} in
    data <- post_sms w payload ;;
    st <- lift (OptGet data "Status") ;;
    if negb (is_string st "Success")
    then throw (Error ("فشل الإرسال: " ++ ToString data))
    else ret VUndefined.

(** index.js calls four helpers it does not define.  They are parameters
    here: functions of their arguments that may throw, and that neither
    touch [sentCount] nor call the SMS gateway. *)
Record Helpers : Type := {
  getRawBody : Request -> completion bytes;
  verifyHmac : value -> bytes -> completion bool;
  extractPhoneNumber : value -> completion value;
  createNotificationMessage : value -> value -> completion value
}.

Section Handler.
Variable hp : Helpers.

Definition handler (w : World) (req : Request) : M St Response :=
  try_catch
    (if negb (method req =? "POST")%string then
       ret (respond 405 [("error", VStr "Method Not Allowed")])
     else
       let eventType := header req "x-shopify-topic" in
       let shopDomain := header req "x-shopify-shop-domain" in
       let hmacHeader := header req "x-shopify-hmac-sha256" in
       if negb (truthy eventType) || negb (truthy shopDomain) || negb (truthy hmacHeader) then
         ret (respond 401 [("error", VStr "Missing required headers")])
       else
         rawBody <- lift (getRawBody hp req) ;;
         valid <- lift (verifyHmac hp hmacHeader rawBody) ;;
         if negb valid then
           ret (respond 401 [("error", VStr "Invalid HMAC signature")])
         else
           webhookData <- parse_json w rawBody ;;
           phone <- lift (extractPhoneNumber hp webhookData) ;;
           if negb (truthy phone) then
             ret (respond 400 [("error", VStr "Phone number not found")])
           else
             remainingQuota <- checkCredit w ;;
             if le_zero remainingQuota then
               ret (respond 402 [("error", VStr "SMS quota exceeded")])
             else
               message <- lift (createNotificationMessage hp eventType webhookData) ;;
               if negb (truthy message) then
                 ret (respond 400 [("error", VStr "Unsupported event type")])
               else
                 sendSMS w phone message ;;;
                 increment_sentCount ;;;
                 sent <- read_sentCount ;;
                 ret (respond 200
                        [ ("success", VBool true);
                          ("message", VStr "SMS sent successfully");
                          ("quota", VObj [ ("sent", VNum sent);
                                           ("remaining", VNum (MAX_QUOTA - sent)) ]) ]))
    (fun error =>
       ret (respond 500
              [ ("error", VStr "Internal Server Error");
                ("details", VStr (message error)) ])).

(** The process serving requests one after the other, each in the world
    it meets. *)
Fixpoint serve (reqs : list (World * Request)) (s : St) : list (completion Response) * St :=
  match reqs with
  | [] => ([], s)
  | (w, req) :: rest =>
      let (r, s') := handler w req s in
      let (rs, s'') := serve rest s' in
      (r :: rs, s'')
  end.
End Handler.

End Counter.

(** ** Reference implementations of the runtime's primitives

    SHA-256 (FIPS 180-4), HMAC (RFC 2104) and base64 (RFC 4648), used to
    build the concrete worlds of the examples: there a signature header is
    the genuine HMAC-SHA256 of the body bytes under the secret. *)

Module Reference.

Definition byte_to_Z (b : byte) : Z := Z.of_N (Byte.to_N b).

Definition byte_of_Z (z : Z) : byte :=
  match Byte.of_N (Z.to_N (z mod 256)) with
  | Some b => b
  | None => Byte.x00
  end.

Definition string_bytes (s : string) : bytes := list_byte_of_string s.

(** *** SHA-256 *)

Definition w32 : Z := 2 ^ 32.
Definition add32 (x y : Z) : Z := (x + y) mod w32.
Definition rotr (n x : Z) : Z :=
  (Z.lor (Z.shiftr x n) (Z.shiftl x (32 - n))) mod w32.
Definition shr (n x : Z) : Z := Z.shiftr x n.
Definition not32 (x : Z) : Z := Z.lxor x (w32 - 1).

Definition Ch (x y z : Z) : Z := Z.lxor (Z.land x y) (Z.land (not32 x) z).
Definition Maj (x y z : Z) : Z :=
  Z.lxor (Z.lxor (Z.land x y) (Z.land x z)) (Z.land y z).
Definition Sigma0 (x : Z) : Z := Z.lxor (Z.lxor (rotr 2 x) (rotr 13 x)) (rotr 22 x).
Definition Sigma1 (x : Z) : Z := Z.lxor (Z.lxor (rotr 6 x) (rotr 11 x)) (rotr 25 x).
Definition sigma0 (x : Z) : Z := Z.lxor (Z.lxor (rotr 7 x) (rotr 18 x)) (shr 3 x).
Definition sigma1 (x : Z) : Z := Z.lxor (Z.lxor (rotr 17 x) (rotr 19 x)) (shr 10 x).

Definition is_prime (n : nat) : bool :=
  (2 <=? n)%nat &&
  forallb (fun d => negb (Nat.modulo n d =? 0)%nat) (seq 2 (n - 2)).

(** The first 64 primes. *)
Definition primes64 : list Z :=
  map Z.of_nat (filter is_prime (seq 2 310)).

(** The integer cube root, one bit at a time from bit [b] down. *)
Fixpoint cube_root_bits (b : nat) (n r : Z) : Z :=
  let r' := r + 2 ^ Z.of_nat b in
  let r'' := if r' * r' * r' <=? n then r' else r in
  match b with
  | O => r''
  | S b' => cube_root_bits b' n r''
  end.

(** The first 32 bits of the fractional parts of the square roots of the
    first 8 primes, and of the cube roots of the first 64. *)
Definition initial_hash : list Z :=
  Eval vm_compute in map (fun p => Z.sqrt (p * 2 ^ 64) mod w32) (firstn 8 primes64).
Definition round_constants : list Z :=
  Eval vm_compute in map (fun p => cube_root_bits 36 (p * 2 ^ 96) 0 mod w32) primes64.

Fixpoint be_word (bs : bytes) (acc : Z) : Z :=
  match bs with
  | [] => acc
  | b :: rest => be_word rest (acc * 256 + byte_to_Z b)
  end.

(** [n] bytes of [z], most significant first. *)
Fixpoint be_bytes (n : nat) (z : Z) : bytes :=
  match n with
  | O => []
  | S n' => byte_of_Z (Z.shiftr z (8 * Z.of_nat n')) :: be_bytes n' z
  end.

Definition pad (msg : bytes) : bytes :=
  let len := List.length msg in
  let zeros := ((64 - (len + 9) mod 64) mod 64)%nat in
  (msg ++ [Byte.x80] ++ repeat Byte.x00 zeros ++ be_bytes 8 (8 * Z.of_nat len))%list.

(** Cut into [n] chunks of [k] bytes. *)
Fixpoint chunks (n k : nat) (bs : bytes) : list bytes :=
  match n with
  | O => []
  | S n' => firstn k bs :: chunks n' k (skipn k bs)
  end.

(** The message schedule, newest word first. *)
Fixpoint schedule (n : nat) (rev_w : list Z) : list Z :=
  match n with
  | O => rev_w
  | S n' =>
      let at_ i := nth i rev_w 0 in
      schedule n'
        (add32 (add32 (sigma1 (at_ 1%nat)) (at_ 6%nat))
               (add32 (sigma0 (at_ 14%nat)) (at_ 15%nat)) :: rev_w)
  end.

Definition round (st : list Z) (kw : Z * Z) : list Z :=
  match st with
  | [a; b; c; d; e; f; g; h] =>
      let t1 := add32 (add32 (add32 h (Sigma1 e)) (add32 (Ch e f g) (fst kw))) (snd kw) in
      let t2 := add32 (Sigma0 a) (Maj a b c) in
      [add32 t1 t2; a; b; c; add32 d t1; e; f; g]
  | _ => st
  end.

Definition compress (h : list Z) (block : bytes) : list Z :=
  let w16 := map (fun c => be_word c 0) (chunks 16 4 block) in
  let w := rev (schedule 48 (rev w16)) in
  map (fun xy => add32 (fst xy) (snd xy))
      (combine h (fold_left round (combine round_constants w) h)).

Definition sha256 (msg : bytes) : bytes :=
  let padded := pad msg in
  let blocks := chunks (List.length padded / 64) 64 padded in
  flat_map (be_bytes 4) (fold_left compress blocks initial_hash).

(** *** HMAC-SHA256 *)

Definition xor_pad (c : Z) (key : bytes) : bytes :=
  map (fun b => byte_of_Z (Z.lxor (byte_to_Z b) c)) key.

Definition hmac_sha256 (key : string) (msg : bytes) : bytes :=
  let k := string_bytes key in
  let k := if (64 <? List.length k)%nat then sha256 k else k in
  let k := (k ++ repeat Byte.x00 (64 - List.length k))%list in
  sha256 (xor_pad 92 k ++ sha256 (xor_pad 54 k ++ msg))%list.

(** *** base64 *)

Definition alphabet : string :=
  "ABCDEFGHIJKLMNOPQRSTUVWXYZabcdefghijklmnopqrstuvwxyz0123456789+/".

Definition sextet_char (z : Z) : ascii :=
  match String.get (Z.to_nat z) alphabet with
  | Some c => c
  | None => "="%char
  end.

Fixpoint base64_encode_list (bs : list Z) : string :=
  match bs with
  | [] => ""
  | [a] =>
      String (sextet_char (a / 4))
        (String (sextet_char ((a mod 4) * 16)) "==")
  | [a; b] =>
      String (sextet_char (a / 4))
        (String (sextet_char ((a mod 4) * 16 + b / 16))
           (String (sextet_char ((b mod 16) * 4)) "="))
  | a :: b :: c :: rest =>
      String (sextet_char (a / 4))
        (String (sextet_char ((a mod 4) * 16 + b / 16))
           (String (sextet_char ((b mod 16) * 4 + c / 64))
              (String (sextet_char (c mod 64)) (base64_encode_list rest))))
  end.

Definition base64_encode (bs : bytes) : string :=
  base64_encode_list (map byte_to_Z bs).

(** The value of a base64 character; the URL-safe [-] and [_] count too. *)
Definition sextet_of (c : ascii) : option Z :=
  let n := Z.of_nat (nat_of_ascii c) in
  if (65 <=? n) && (n <=? 90) then Some (n - 65)
  else if (97 <=? n) && (n <=? 122) then Some (n - 71)
  else if (48 <=? n) && (n <=? 57) then Some (n + 4)
  else if (n =? 43) || (n =? 45) then Some 62
  else if (n =? 47) || (n =? 95) then Some 63
  else None.

(** The sextets of a text up to the first [=]; other characters are
    skipped, as [Buffer.from] does. *)
Fixpoint sextets (s : string) : list Z :=
  match s with
  | EmptyString => []
  | String c rest =>
      if Ascii.eqb c "="%char then []
      else match sextet_of c with
           | Some v => v :: sextets rest
           | None => sextets rest
           end
  end.

Fixpoint base64_decode_list (vs : list Z) : bytes :=
  match vs with
  | a :: b :: c :: d :: rest =>
      byte_of_Z (a * 4 + b / 16) :: byte_of_Z ((b mod 16) * 16 + c / 4)
        :: byte_of_Z ((c mod 4) * 64 + d) :: base64_decode_list rest
  | [a; b; c] => [byte_of_Z (a * 4 + b / 16); byte_of_Z ((b mod 16) * 16 + c / 4)]
  | [a; b] => [byte_of_Z (a * 4 + b / 16)]
  | _ => []
  end.

Definition base64_decode (s : string) : bytes :=
  base64_decode_list (sextets s).

End Reference.

(** ** Vocabulary of the statements *)

Module Spec.

(** The status of the response a run ended with. *)
Definition sent_status {S : Type} (out : completion Response * S) : option Z :=
  match fst out with
  | Normal r => Some (status r)
  | Throw _ => None
  end.

(** A POST request carrying the three required headers. *)
Definition well_formed (req : Request) : Prop :=
  method req = "POST" /\
  truthy (header req "x-shopify-topic") = true /\
  truthy (header req "x-shopify-shop-domain") = true /\
  truthy (header req "x-shopify-hmac-sha256") = true.

(** The request passes signature verification and phone extraction: it
    is well formed, its body arrives, the signature verifies, the body
    decodes to [data] and a phone is found in it. *)
Definition accepted
    (verify : World -> value -> bytes -> completion bool)
    (extract : value -> completion value)
    (w : World) (req : Request) (data phone : value) : Prop :=
  well_formed req /\
  exists rawBody,
    body req = StreamEnd rawBody /\
    verify w (header req "x-shopify-hmac-sha256") rawBody = Normal true /\
    JSON_parse w rawBody = inr data /\
    extract data = Normal phone /\
    truthy phone = true.

(** The same for index.js, whose helpers are parameters. *)
Definition accepted_by_counter
    (hp : Counter.Helpers) (w : World) (req : Request) (data phone : value) : Prop :=
  well_formed req /\
  exists rawBody,
    Counter.getRawBody hp req = Normal rawBody /\
    Counter.verifyHmac hp (header req "x-shopify-hmac-sha256") rawBody = Normal true /\
    JSON_parse w rawBody = inr data /\
    Counter.extractPhoneNumber hp data = Normal phone /\
    truthy phone = true.


(** The value a dotted path resolves to: [undefined] as soon as a
    segment is missing. *)
Definition resolve (data : value) (path : list string) : value :=
  fold_left (fun o k => if nullish o then VUndefined else get o k) path data.

Definition five_paths : list (list string) :=
  [ ["customer"; "phone"];
    ["order"; "customer"; "phone"];
    ["checkout"; "billing_address"; "phone"];
    ["billing_address"; "phone"];
    ["shipping_address"; "phone"] ].

Definition three_paths : list (list string) := firstn 3 five_paths.

(** A value that exists, is non-empty and matches the phone pattern. *)
Definition is_phone (v : value) : bool :=
  truthy v && phoneRegex_test (ToString v).

(** The first of the candidates that satisfies [ok], else [default]. *)
Definition first_or (ok : value -> bool) (default : value) (candidates : list value)
  : value :=
  match find ok candidates with
  | Some v => v
  | None => default
  end.




Definition financial_status (data : value) : value :=
  resolve data ["order"; "financial_status"].

(** The gateway accepted the message. *)
Definition gateway_success (w : World) (data : value) : Prop :=
  sms_gateway w = Resolved data /\
  nullish data = false /\ is_string (get data "Status") "Success" = true.

End Spec.
Export Spec.

(** ** Concrete worlds and requests *)

Module Scenario.

Definition dq : string := String (ascii_of_nat 34) EmptyString.

(** The body of scenario A, as text and as the tree it decodes to. *)
Definition body_text : string :=
  "{" ++ dq ++ "order" ++ dq ++ ":{" ++ dq ++ "order_number" ++ dq ++ ":"
      ++ dq ++ "1001" ++ dq ++ "},"
      ++ dq ++ "customer" ++ dq ++ ":{" ++ dq ++ "phone" ++ dq ++ ":"
      ++ dq ++ "+966500000000" ++ dq ++ "}}".

Definition rawBody : bytes := Reference.string_bytes body_text.

Definition payload : value :=
  VObj [ ("order", VObj [("order_number", VStr "1001")]);
         ("customer", VObj [("phone", VStr "+966500000000")]) ].

Definition secret : string := "shpss_0123456789abcdef".

(** The signature Shopify sends for [rawBody] under [secret]. *)
Definition signature : string :=
  Eval vm_compute in Reference.base64_encode (Reference.hmac_sha256 secret rawBody).

Definition lookup (table : list (string * string)) (k : string) : option string :=
  option_map snd (find (fun kv => (fst kv =? k)%string) table).

Definition environment : list (string * string) :=
  [ ("SHOPIFY_WEBHOOK_SECRET", secret);
    ("CHECK_CREDIT_URL", "https://sms.example/credit");
    ("SMS_API_URL", "https://sms.example/send");
    ("SMS_USERNAME", "store");
    ("SMS_PASSWORD", "s3cret");
    ("SMS_SENDER", "Pshopi") ].

(** [JSON.stringify] on trees of strings without escapes and integers. *)
Fixpoint stringify (v : value) : string :=
  match v with
  | VNull | VNaN => "null"
  | VBool true => "true"
  | VBool false => "false"
  | VNum z => Z_to_string z
  | VStr s => dq ++ s ++ dq
  | VArr items =>
      "[" ++ (fix join (xs : list value) : string :=
                match xs with
                | [] => ""
                | x :: rest =>
                    (match x with
                     | VUndefined | VNative _ => "null"
                     | _ => stringify x
                     end) ++ (match rest with [] => "" | _ => "," ++ join rest end)
                end) items ++ "]"
  | VObj props =>
      "{" ++ (fix join (ps : list (string * value)) : string :=
                match ps with
                | [] => ""
                | (k, x) :: rest =>
                    match x with
                    | VUndefined | VNative _ => join rest
                    | _ => dq ++ k ++ dq ++ ":" ++ stringify x ++
                           (match rest with [] => "" | _ => "," ++ join rest end)
                    end
                end) props ++ "}"
  | VUndefined | VNative _ => "undefined"
  end.

Definition world (credit sms : axios_reply) : World :=
  {| env := lookup environment;
     hmac_sha256 := Reference.hmac_sha256;
     base64_encode := Reference.base64_encode;
     base64_decode := Reference.base64_decode;
     JSON_parse := fun raw =>
       if list_eq_dec Byte.byte_eq_dec raw rawBody then inr payload
       else inl "Unexpected token in JSON";
     JSON_stringify := stringify;
     randomUUID := "1b4e28ba-2fa1-41d2-883f-0016d3cca427";
     credit_service := credit;
     sms_gateway := sms;
     stack := fun e => "Error: " ++ message e |}.

Definition request (verb topic sig : string) : Request :=
  {| method := verb;
     headers := lookup [ ("x-shopify-topic", topic);
                         ("x-shopify-shop-domain", "pshopi.myshopify.com");
                         ("x-shopify-hmac-sha256", sig) ];
     body := StreamEnd rawBody |}.

(** Scenario A: a signed [orders/create] event. *)
Definition requestA : Request := request "POST" "orders/create" signature.

(** A request with no header at all. *)
Definition bare (verb : string) : Request :=
  {| method := verb; headers := fun _ => None; body := StreamEnd rawBody |}.

Definition delivered : value :=
  VObj [ ("Status", VStr "Success"); ("SMSID", VStr "SMS-000417") ].

Definition phone : value := VStr "+966500000000".

(** The worlds of the examples: the credit service answers 5, 0, the
    sentinel -5, not at all, or with an error text; the gateway accepts. *)
Definition worldA : World := world (Resolved (VNum 5)) (Resolved delivered).
Definition world_empty : World := world (Resolved (VNum 0)) (Resolved delivered).
Definition world_exhausted : World := world (Resolved (VNum (-5))) (Resolved delivered).
Definition world_down : World := world (Rejected "connect ECONNREFUSED") (Resolved delivered).
Definition world_garbled : World :=
  world (Resolved (VStr "Invalid credentials")) (Resolved delivered).

(** A signed request whose signature header decodes to three bytes. *)
Definition request_short_signature : Request := request "POST" "orders/create" "AAAA".



(** The helpers index.js leaves undefined, taken from the sibling file. *)
Definition helpers (w : World) : Counter.Helpers :=
  {| Counter.getRawBody := fun req =>
       match body req with
       | StreamEnd chunks => Normal chunks
       | StreamError m => Throw (Error m)
       end;
     Counter.verifyHmac := Part000.verifyHmac w;
     Counter.extractPhoneNumber := Part000.extractPhoneNumber;
     Counter.createNotificationMessage := Part000.createNotificationMessage w |}.

(** The helpers as index.js has them on its own: undefined names. *)
Definition undefined_helpers : Counter.Helpers :=
  {| Counter.getRawBody := fun _ => Throw (ReferenceError "getRawBody is not defined");
     Counter.verifyHmac := fun _ _ => Throw (ReferenceError "verifyHmac is not defined");
     Counter.extractPhoneNumber := fun _ =>
       Throw (ReferenceError "extractPhoneNumber is not defined");
     Counter.createNotificationMessage := fun _ _ =>
       Throw (ReferenceError "createNotificationMessage is not defined") |}.

End Scenario.

(** ** Outcomes of a request *)

Module Outcome.

(** [response.data?.Status === "Success"] on the gateway's answer to this
    request: what [sendSMS] requires in order not to throw. *)
Definition gateway_ok (w : World) : bool :=
  match sms_gateway w with
  | Resolved data => negb (nullish data) && is_string (get data "Status") "Success"
  | Rejected _ => false
  end.

(** The effects of one request of a handler with [getRawBody] of its
    own: an initial segment of body read, parse, credit call, SMS call. *)
Definition pipeline_shape (evs : list event) : bool :=
  match evs with
  | []
  | [EvReadBody]
  | [EvReadBody; EvJsonParse]
  | [EvReadBody; EvJsonParse; EvCreditPost _ _]
  | [EvReadBody; EvJsonParse; EvCreditPost _ _; EvSmsPost _] => true
  | _ => false
  end.

(** The same for index.js, where reading the body is a parameter. *)
Definition counter_shape (evs : list event) : bool :=
  match evs with
  | []
  | [EvJsonParse]
  | [EvJsonParse; EvCreditPost _ _]
  | [EvJsonParse; EvCreditPost _ _; EvSmsPost _] => true
  | _ => false
  end.

(** The status codes the handlers pass to [res.status]. *)
Definition known_status (code : Z) : bool :=
  existsb (Z.eqb code) [200; 400; 401; 402; 405; 500].

Definition is_object (v : value) : bool :=
  match v with
  | VObj _ => true
  | _ => false
  end.

(** The responses with status 200 among those of a run. *)
Definition count_200 (rs : list (completion Response)) : Z :=
  Z.of_nat (List.length
              (filter (fun r => match r with
                                | Normal x => status x =? 200
                                | Throw _ => false
                                end) rs)).

(** The request [sendSMS] posts for a receiver and a text. *)
Definition sms_payload (w : World) (phone msg : value) : SmsPayload :=
  {| UserName := env_value w "SMS_USERNAME";
     Password := env_value w "SMS_PASSWORD";
     SMSText := msg;
     SMSLang := "ar";
     SMSSender := env_value w "SMS_SENDER";
     SMSReceiver := phone;
     SMSID := randomUUID w |}.

(** The effects of a request that goes all the way, once its body was
    read. *)
Definition calls_after_parsing (w : World) (phone msg : value) : list event :=
  [ EvJsonParse;
    EvCreditPost (env_value w "SMS_USERNAME") (env_value w "SMS_PASSWORD");
    EvSmsPost (sms_payload w phone msg) ].

End Outcome.
Export Outcome.

(** ** Further worlds and requests *)

Module Cases.

(** The signature header for a body under the secret of the scenarios. *)
Definition sign (raw : bytes) : string :=
  Reference.base64_encode (Reference.hmac_sha256 Scenario.secret raw).

(** A world in which the body [text] decodes to [parsed]. *)
Definition world_parsing (text : string) (parsed : string + value)
    (credit sms : axios_reply) : World :=
  let w := Scenario.world credit sms in
  {| env := env w;
     hmac_sha256 := hmac_sha256 w;
     base64_encode := base64_encode w;
     base64_decode := base64_decode w;
     JSON_parse := fun raw =>
       if list_eq_dec Byte.byte_eq_dec raw (Reference.string_bytes text) then parsed
       else inl "Unexpected token in JSON";
     JSON_stringify := JSON_stringify w;
     randomUUID := randomUUID w;
     credit_service := credit;
     sms_gateway := sms;
     stack := stack w |}.

(** A signed POST request with body [text]. *)
Definition signed (topic text : string) : Request :=
  {| method := "POST";
     headers := Scenario.lookup
                  [ ("x-shopify-topic", topic);
                    ("x-shopify-shop-domain", "pshopi.myshopify.com");
                    ("x-shopify-hmac-sha256", sign (Reference.string_bytes text)) ];
     body := StreamEnd (Reference.string_bytes text) |}.

(** The body [null], and a body that is no JSON. *)
Definition world_null : World :=
  world_parsing "null" (inr VNull) (Resolved (VNum 5)) (Resolved Scenario.delivered).
Definition world_broken : World :=
  world_parsing "{oops" (inl "Unexpected token o in JSON at position 1")
    (Resolved (VNum 5)) (Resolved Scenario.delivered).

(** The gateway refuses, or cannot be reached. *)
Definition refused : value := VObj [ ("Status", VStr "Failed") ].
Definition world_refused : World :=
  Scenario.world (Resolved (VNum 5)) (Resolved refused).
Definition world_unreachable : World :=
  Scenario.world (Resolved (VNum 5)) (Rejected "connect ETIMEDOUT").

(** A POST request whose topic header is present and empty. *)
Definition empty_topic : Request := Scenario.request "POST" "" Scenario.signature.

(** A request whose body stream fails. *)
Definition broken_stream : Request :=
  {| method := "POST";
     headers := headers Scenario.requestA;
     body := StreamError "aborted" |}.

(** The body [{}]: an object without any phone. *)
Definition world_no_phone : World :=
  world_parsing "{}" (inr (VObj [])) (Resolved (VNum 5)) (Resolved Scenario.delivered).

(** Scenario A on a machine with [NODE_ENV=development] whose credit
    service cannot be reached. *)
Definition world_development : World :=
  let w := Scenario.world_down in
  {| env := fun name => if (name =? "NODE_ENV")%string then Some "development"
                        else env w name;
     hmac_sha256 := hmac_sha256 w;
     base64_encode := base64_encode w;
     base64_decode := base64_decode w;
     JSON_parse := JSON_parse w;
     JSON_stringify := JSON_stringify w;
     randomUUID := randomUUID w;
     credit_service := credit_service w;
     sms_gateway := sms_gateway w;
     stack := stack w |}.

(** Scenario A under a topic no table knows. *)
Definition unknown_topic : Request :=
  Scenario.request "POST" "orders/weird_event" Scenario.signature.

End Cases.

(** ** Properties *)

(** *** Proof tools *)

(** Unfold the plumbing of a handler, leaving its helpers folded. *)
Ltac unfold_pipeline :=
  cbv beta iota zeta delta
    [ bind ret throw lift try_catch emit read_stream parse_json post_credit
      post_sms log traced_trace Counter.traced_St
      ApiV1.getRawBody ApiV1.checkCredit ApiV1.sendSMS
      ApiV2.getRawBody ApiV2.checkCredit ApiV2.sendSMS
      Part000.getRawBody Part000.checkCredit Part000.sendSMS
      Counter.checkCredit Counter.sendSMS Counter.read_sentCount
      Counter.increment_sentCount ].

(** Split on the innermost scrutinee the goal is stuck on. *)
Ltac is_atomic_scrutinee t :=
  lazymatch t with
  | context [match _ with _ => _ end] => fail
  | _ => idtac
  end.

Ltac case_step :=
  match goal with
  | |- context [match ?scrutinee with _ => _ end] =>
      is_atomic_scrutinee scrutinee; destruct scrutinee eqn:?
  end.

Ltac run_pipeline :=
  unfold_pipeline;
  repeat (case_step; unfold_pipeline; cbn [app Counter.sentCount Counter.trace] in * ).

Lemma dispatches_app (tr1 tr2 : list event) :
  dispatches (tr1 ++ tr2) = (dispatches tr1 ++ dispatches tr2)%list.
Proof. unfold dispatches. apply flat_map_app. Qed.

(** Rewrite with the facts at hand while running the pipeline. *)
Ltac use_facts :=
  repeat (match goal with
          | H : _ = _ |- _ => rewrite H
          end;
          unfold_pipeline;
          cbn [negb orb andb app filter List.length Nat.ltb Nat.leb
               Counter.sentCount Counter.trace]).

Ltac open_accepted H :=
  let Hm := fresh "Hmethod" in
  let Ht := fresh "Htopic" in
  let Hd := fresh "Hdomain" in
  let Hh := fresh "Hhmac" in
  let raw := fresh "rawBody" in
  let Hb := fresh "Hbody" in
  let Hv := fresh "Hverify" in
  let Hj := fresh "Hjson" in
  let He := fresh "Hextract" in
  let Hp := fresh "Hphone" in
  destruct H as [[Hm [Ht [Hd Hh]]] [raw [Hb [Hv [Hj [He Hp]]]]]].

Ltac enter_handler :=
  unfold ApiV1.handler, ApiV2.handler, Part000.handler, Counter.handler,
    ApiV1.requiredHeaders;
  unfold_pipeline.

(** *** Property access that cannot throw *)

Lemma OptGet_total (o : value) (k : string) :
  OptGet o k = Normal (if nullish o then VUndefined else get o k).
Proof. destruct o; reflexivity. Qed.

Lemma GetV_object (o : value) (k : string) :
  nullish o = false -> GetV o k = Normal (get o k).
Proof. unfold GetV. intros ->. reflexivity. Qed.

Lemma or_else_Normal (a b : value) :
  or_else a (Normal b) = Normal (if truthy a then a else b).
Proof. unfold or_else. destruct (truthy a); reflexivity. Qed.

Lemma reduce_OptGet (path : list string) :
  forall data, reduce OptGet path data = Normal (resolve data path).
Proof.
  induction path as [ | k rest IH]; intros data.
  - reflexivity.
  - cbn [reduce]. rewrite OptGet_total. cbn [bindC]. rewrite IH. reflexivity.
Qed.

Lemma chain_resolve (data : value) (path : list string) :
  Part000.chain data path = Normal (resolve data path)
  /\ ApiV2.chain data path = Normal (resolve data path).
Proof. split; apply reduce_OptGet. Qed.

Lemma order_field_resolve (data : value) (field : string) :
  nullish data = false ->
  ApiV1.order_field data field = Normal (resolve data ["order"; field]).
Proof.
  intros Hdata. unfold ApiV1.order_field, resolve. cbn [fold_left].
  rewrite (GetV_object _ _ Hdata), Hdata. cbn [bindC]. apply OptGet_total.
Qed.

(** *** Scenario A is accepted by every handler *)

(** With the reference primitives the signature of scenario A verifies,
    whatever the two services answer. *)
Lemma requestA_well_formed : well_formed Scenario.requestA.
Proof. repeat split. Qed.

Lemma requestA_accepted_v1 credit sms :
  accepted ApiV1.verifyHmac ApiV1.extractPhoneNumber
    (Scenario.world credit sms) Scenario.requestA Scenario.payload Scenario.phone.
Proof.
  split; [ exact requestA_well_formed | ].
  exists Scenario.rawBody. repeat split; vm_compute; reflexivity.
Qed.

Lemma requestA_accepted_v2 credit sms :
  accepted ApiV2.verifyHmac ApiV2.extractPhoneNumber
    (Scenario.world credit sms) Scenario.requestA Scenario.payload Scenario.phone.
Proof.
  split; [ exact requestA_well_formed | ].
  exists Scenario.rawBody. repeat split; vm_compute; reflexivity.
Qed.

Lemma requestA_accepted_part000 credit sms :
  accepted Part000.verifyHmac Part000.extractPhoneNumber
    (Scenario.world credit sms) Scenario.requestA Scenario.payload Scenario.phone.
Proof.
  split; [ exact requestA_well_formed | ].
  exists Scenario.rawBody. repeat split; vm_compute; reflexivity.
Qed.


(** *** The reference primitives agree with the published test vectors *)

Example sha256_abc :
  Reference.base64_encode (Reference.sha256 (Reference.string_bytes "abc"))
  = "ungWv48Bz+pBQUDeXa4iI7ADYaOWF3qctBD/YfIAFa0=".
Proof. vm_compute. reflexivity. Qed.

(** RFC 4231, test case 2. *)
Example hmac_sha256_rfc4231 :
  Reference.base64_encode
    (Reference.hmac_sha256 "Jefe" (Reference.string_bytes "what do ya want for nothing?"))
  = "W9zBRr9gdU5qBCQmCJV1x1oAPwidJzmDnexYuWTsOEM=".
Proof. vm_compute. reflexivity. Qed.

Example base64_round_trip :
  Reference.base64_decode (Reference.base64_encode Scenario.rawBody) = Scenario.rawBody
  /\ List.length (Reference.base64_decode Scenario.signature) = 32%nat
  /\ List.length (Reference.base64_decode "AAAA") = 3%nat.
Proof. vm_compute. repeat split. Qed.

(** The signature of scenario A. *)
Example signature_of_scenario_A :
  Scenario.signature = "huwxlRfrWw7x7C6twmJWq2jLSSsk/ASbWrzL4IoicAs=".
Proof. reflexivity. Qed.

(** Changing one byte of the body after signing makes every
    [verifyHmac] answer [false]. *)
Example tampered_body_fails :
  let tampered := (Reference.string_bytes "x" ++ tl Scenario.rawBody)%list in
  ApiV1.verifyHmac Scenario.worldA (VStr Scenario.signature) tampered = Normal false
  /\ ApiV2.verifyHmac Scenario.worldA (VStr Scenario.signature) tampered = Normal false
  /\ Part000.verifyHmac Scenario.worldA (VStr Scenario.signature) tampered = Normal false.
Proof. vm_compute. repeat split. Qed.

(** *** The gates before the payload is trusted *)

(** A request with another method than POST is answered 405 and nothing
    else happens, whatever its headers and body. *)
Lemma other_methods_405 (w : World) (req : Request) :
  method req <> "POST" ->
  (exists r, ApiV1.handler w req [] = (Normal r, []) /\ status r = 405)
  /\ (exists r, ApiV2.handler w req [] = (Normal r, []) /\ status r = 405)
  /\ (exists r, Part000.handler w req [] = (Normal r, []) /\ status r = 405)
  /\ (forall hp s, exists r,
        Counter.handler hp w req s = (Normal r, s) /\ status r = 405).
Proof.
  intros Hmethod.
  assert (Hneq : (method req =? "POST")%string = false)
    by (apply String.eqb_neq; exact Hmethod).
  split; [ | split; [ | split; [ | intros hp s ] ] ];
    enter_handler; rewrite Hneq; cbn [negb];
    eexists; split; reflexivity.
Qed.

(** A GET request carrying the headers of scenario A. *)
Lemma other_methods_405_witness :
  exists r, ApiV1.handler Scenario.worldA (Scenario.request "GET" "orders/create"
                                             Scenario.signature) []
            = (Normal r, []) /\ status r = 405.
Proof.
  apply (proj1 (other_methods_405 Scenario.worldA
                  (Scenario.request "GET" "orders/create" Scenario.signature)
                  ltac:(discriminate))).
Defined.

(** A well-formed request whose signature does not verify is answered
    401 after its body was read; the body is not parsed and no upstream
    service is called. *)
Lemma invalid_signature_401 (w : World) (req : Request) (rawBody : bytes) :
  well_formed req ->
  body req = StreamEnd rawBody ->
  (ApiV1.verifyHmac w (header req "x-shopify-hmac-sha256") rawBody = Normal false ->
   exists r, ApiV1.handler w req [] = (Normal r, [EvReadBody]) /\ status r = 401)
  /\ (ApiV2.verifyHmac w (header req "x-shopify-hmac-sha256") rawBody = Normal false ->
      exists r, ApiV2.handler w req [] = (Normal r, [EvReadBody]) /\ status r = 401)
  /\ (Part000.verifyHmac w (header req "x-shopify-hmac-sha256") rawBody = Normal false ->
      exists r, Part000.handler w req [] = (Normal r, [EvReadBody]) /\ status r = 401).
Proof.
  intros [Hmethod [Htopic [Hdomain Hhmac]]] Hbody.
  split; [ | split ]; intros Hverify; enter_handler; use_facts;
    eexists; split; reflexivity.
Qed.

(** Scenario A with the first character of its signature replaced. *)
Lemma invalid_signature_401_witness :
  exists r,
    ApiV1.handler Scenario.worldA
      (Scenario.request "POST" "orders/create" (String "A" (substring 1 43 Scenario.signature)))
      [] = (Normal r, [EvReadBody])
    /\ status r = 401.
Proof.
  apply (proj1 (invalid_signature_401 Scenario.worldA
                  (Scenario.request "POST" "orders/create"
                     (String "A" (substring 1 43 Scenario.signature)))
                  Scenario.rawBody
                  ltac:(repeat split) eq_refl)).
  vm_compute. reflexivity.
Defined.

(** The credit service is asked before the topic is looked up: an
    unsupported topic is answered 400 after the credit call. *)
Example unsupported_topic_400 :
  ApiV1.handler Scenario.worldA
    (Scenario.request "POST" "orders/weird_event" Scenario.signature) []
  = (Normal (respond 400 [("error", VStr "نوع الحدث غير مدعوم")]),
     [EvReadBody; EvJsonParse; EvCreditPost (VStr "store") (VStr "s3cret")]).
Proof. vm_compute. reflexivity. Qed.

(** *** C1: what the exhaustion sentinel leads to *)

(** C1, counterexample.  Scenario A passes signature verification and
    phone extraction; when the credit service answers -5 the handler that
    tests for the sentinel responds 500, the status it also gives when the
    credit service cannot be reached. *)
Lemma C1_sentinel_is_500 :
  Part000.verifyHmac Scenario.world_exhausted
    (header Scenario.requestA "x-shopify-hmac-sha256") Scenario.rawBody = Normal true
  /\ Part000.extractPhoneNumber Scenario.payload = Normal Scenario.phone
  /\ credit_service Scenario.world_exhausted = Resolved (VNum (-5))
  /\ sent_status (Part000.handler Scenario.world_exhausted Scenario.requestA []) = Some 500
  /\ sent_status (Part000.handler Scenario.world_down Scenario.requestA []) = Some 500.
Proof. repeat split; vm_compute; reflexivity. Qed.

(** C1, as amended.  For every request that passes signature
    verification and phone extraction, when the credit service answers -5:
    the two handlers that test for the sentinel respond 500, because their
    [checkCredit] throws a plain [Error] (its message names the
    exhaustion), the same class of outcome and the same status a rejected
    call gets; the two handlers of api/index.js, which do not know the
    sentinel, respond 402 by their [remaining <= 0] gate.  No handler
    dispatches. *)
Theorem C1_sentinel_outcome :
  forall (w : World) (req : Request) (data phone : value),
    credit_service w = Resolved (VNum (-5)) ->
    (exists evs,
       Part000.checkCredit w [] =
         (Throw (Error "فشل التحقق من الرصيد: الحصة نفذت"), evs))
    /\ (forall w' m, credit_service w' = Rejected m ->
          exists evs,
            Part000.checkCredit w' [] =
              (Throw (Error ("فشل التحقق من الرصيد: " ++ m)), evs))
    /\ (accepted Part000.verifyHmac Part000.extractPhoneNumber w req data phone ->
        exists r evs, Part000.handler w req [] = (Normal r, evs)
                      /\ status r = 500 /\ dispatches evs = [])
    /\ (forall hp n, accepted_by_counter hp w req data phone ->
        exists r s',
          Counter.handler hp w req {| Counter.sentCount := n; Counter.trace := [] |}
            = (Normal r, s')
          /\ status r = 500 /\ dispatches (Counter.trace s') = []
          /\ Counter.sentCount s' = n)
    /\ (accepted ApiV1.verifyHmac ApiV1.extractPhoneNumber w req data phone ->
        exists r evs, ApiV1.handler w req [] = (Normal r, evs)
                      /\ status r = 402 /\ dispatches evs = [])
    /\ (accepted ApiV2.verifyHmac ApiV2.extractPhoneNumber w req data phone ->
        exists r evs, ApiV2.handler w req [] = (Normal r, evs)
                      /\ status r = 402 /\ dispatches evs = []).
Proof.
  intros w req data phone Hcredit.
  split; [ | split; [ | split; [ | split; [ | split ] ] ] ].
  - unfold_pipeline. rewrite Hcredit. eexists. reflexivity.
  - intros w' m Hdown. unfold_pipeline. rewrite Hdown. eexists. reflexivity.
  - intros Hacc. open_accepted Hacc. enter_handler. use_facts.
    do 2 eexists. repeat split.
  - intros hp n Hacc. open_accepted Hacc. enter_handler. use_facts.
    do 2 eexists. repeat split.
  - intros Hacc. open_accepted Hacc. enter_handler. use_facts.
    do 2 eexists. repeat split.
  - intros Hacc. open_accepted Hacc. enter_handler. use_facts.
    do 2 eexists. repeat split.
Qed.

(** C1, witness: scenario A in the world whose credit service answers -5. *)
Lemma C1_sentinel_witness :
  (exists r evs,
     Part000.handler Scenario.world_exhausted Scenario.requestA [] = (Normal r, evs)
     /\ status r = 500 /\ dispatches evs = [])
  /\ (exists r evs,
        ApiV1.handler Scenario.world_exhausted Scenario.requestA [] = (Normal r, evs)
        /\ status r = 402 /\ dispatches evs = []).
Proof.
  pose proof (C1_sentinel_outcome Scenario.world_exhausted Scenario.requestA
                Scenario.payload Scenario.phone eq_refl) as H.
  split.
  - apply (proj1 (proj2 (proj2 H))). apply requestA_accepted_part000.
  - apply (proj1 (proj2 (proj2 (proj2 (proj2 H))))). apply requestA_accepted_v1.
Defined.

(** *** C2: signature verification and the errors inside it *)

(** In api/index.js (first document) [verifyHmac] never throws: it
    answers [true] exactly when the guarded computation does, and [false]
    in every other case, an error included. *)
Lemma verifyHmac_v1_total (w : World) (hmacHeader : value) (body : bytes) :
  exists b, ApiV1.verifyHmac w hmacHeader body = Normal b.
Proof.
  unfold ApiV1.verifyHmac.
  repeat case_step; eexists; reflexivity.
Qed.

(** There it answers [false] when the secret is not set, and when the
    header decodes to another length than the 32 bytes of a digest. *)
Lemma verifyHmac_v1_false_on_error (w : World) (s : string) (body : bytes) :
  env w "SHOPIFY_WEBHOOK_SECRET" = None
  \/ List.length (base64_decode w s) <> 32%nat
     /\ (forall key, List.length (hmac_sha256 w key body) = 32%nat)
     /\ (forall bs, base64_decode w (base64_encode w bs) = bs) ->
  ApiV1.verifyHmac w (VStr s) body = Normal false.
Proof.
  unfold ApiV1.verifyHmac, env_value, createHmac, Buffer_from_base64, timingSafeEqual.
  intros [Hnone | [Hlen [Hdigest Hround]]].
  - rewrite Hnone. reflexivity.
  - destruct (env w "SHOPIFY_WEBHOOK_SECRET") as [key | ]; [ | reflexivity ].
    destruct (negb (truthy (VStr key))); [ reflexivity | ].
    cbn [bindC]. rewrite Hround, Hdigest.
    destruct (Nat.eqb_spec 32 (List.length (base64_decode w s))) as [E | E].
    + exfalso. apply Hlen. symmetry. exact E.
    + reflexivity.
Qed.

(** Without the guard, a signature of another length than the digest
    makes [crypto.timingSafeEqual] throw, and an unset secret makes
    [crypto.createHmac] throw. *)
Lemma verifyHmac_unguarded_throws (w : World) (s key : string) (body : bytes) :
  env w "SHOPIFY_WEBHOOK_SECRET" = Some key ->
  List.length (base64_decode w (base64_encode w (hmac_sha256 w key body)))
    <> List.length (base64_decode w s) ->
  Part000.verifyHmac w (VStr s) body
    = Throw (RangeError "Input buffers must have the same byte length")
  /\ ApiV2.verifyHmac w (VStr s) body
    = Throw (RangeError "Input buffers must have the same byte length").
Proof.
  intros Hkey Hlen.
  unfold Part000.verifyHmac, ApiV2.verifyHmac, createHmac, Buffer_from_base64,
    timingSafeEqual.
  rewrite Hkey. cbn [bindC].
  destruct (Nat.eqb_spec
              (List.length (base64_decode w (base64_encode w (hmac_sha256 w key body))))
              (List.length (base64_decode w s))) as [E | E].
  - contradiction.
  - split; reflexivity.
Qed.

(** C2, the failing input.  The signature header [AAAA] is well-formed
    base64 for three bytes.  The guarded [verifyHmac] answers [false] and
    the request is rejected with 401; the two unguarded ones throw a
    [RangeError] and their handlers respond 500. *)
Theorem C2_short_signature :
  ApiV1.verifyHmac Scenario.worldA (VStr "AAAA") Scenario.rawBody = Normal false
  /\ sent_status (ApiV1.handler Scenario.worldA Scenario.request_short_signature [])
     = Some 401
  /\ Part000.verifyHmac Scenario.worldA (VStr "AAAA") Scenario.rawBody
     = Throw (RangeError "Input buffers must have the same byte length")
  /\ ApiV2.verifyHmac Scenario.worldA (VStr "AAAA") Scenario.rawBody
     = Throw (RangeError "Input buffers must have the same byte length")
  /\ sent_status (Part000.handler Scenario.worldA Scenario.request_short_signature [])
     = Some 500
  /\ sent_status (ApiV2.handler Scenario.worldA Scenario.request_short_signature [])
     = Some 500.
Proof.
  assert (Hlen : List.length
                   (base64_decode Scenario.worldA
                      (base64_encode Scenario.worldA
                         (hmac_sha256 Scenario.worldA Scenario.secret Scenario.rawBody)))
                 <> List.length (base64_decode Scenario.worldA "AAAA")).
  { vm_compute. discriminate. }
  destruct (verifyHmac_unguarded_throws Scenario.worldA "AAAA" Scenario.secret
              Scenario.rawBody eq_refl Hlen) as [Hp Hv2].
  split; [ vm_compute; reflexivity | ].
  split; [ vm_compute; reflexivity | ].
  split; [ exact Hp | ].
  split; [ exact Hv2 | ].
  split; vm_compute; reflexivity.
Qed.

(** *** C3: the phone paths *)

(** The loop of api/index.js returns the first candidate that passes
    [value && isValidPhone(value)], whatever the list of paths. *)
Lemma extractPhoneNumber_loop_finds (paths : list string) (data : value) :
  ApiV1.extractPhoneNumber_loop paths data =
    Normal (first_or is_phone VNull
              (map (fun p => resolve data (split "." p)) paths)).
Proof.
  induction paths as [ | p rest IH].
  - reflexivity.
  - cbn [ApiV1.extractPhoneNumber_loop map].
    change (fun obj key => OptGet obj key) with OptGet.
    rewrite reduce_OptGet. cbn [bindC].
    unfold first_or. cbn [find]. unfold is_phone at 1. unfold ApiV1.isValidPhone.
    destruct (truthy (resolve data (split "." p)) &&
              phoneRegex_test (ToString (resolve data (split "." p)))).
    + reflexivity.
    + exact IH.
Qed.




(** *** C4: the topics that have a message *)



(** Bring a composer applied to such a payload into the form of a table
    lookup. *)
Ltac compose_normal Hdata :=
  unfold ApiV1.createNotificationMessage, ApiV2.createMessage,
    Part000.createNotificationMessage;
  rewrite ?(order_field_resolve _ _ Hdata), ?(GetV_object _ _ Hdata);
  cbn [bindC]; rewrite ?OptGet_total, ?or_else_Normal; cbn [bindC];
  rewrite ?OptGet_total, ?or_else_Normal; cbn [bindC];
  unfold GetV; cbn [nullish ToString get assoc].




(** A topic that names a member of [Object.prototype] finds that member
    in the table: the composer returns it and the handler dispatches. *)
Remark inherited_member_is_returned :
  ApiV1.createNotificationMessage Scenario.worldA (VStr "constructor") Scenario.payload
    = Normal (VNative "constructor")
  /\ sent_status (ApiV1.handler Scenario.worldA
                    (Scenario.request "POST" "constructor" Scenario.signature) [])
     = Some 200.
Proof. split; vm_compute; reflexivity. Qed.

(** *** C5: scenario A *)





(** In index.js, completed with the helpers of the sibling file, the
    response of scenario A carries the session counters instead. *)
Example scenario_A_session_counters :
  fst (Counter.handler (Scenario.helpers Scenario.worldA) Scenario.worldA
         Scenario.requestA Counter.initial)
  = Normal (respond 200 [ ("success", VBool true);
                          ("message", VStr "SMS sent successfully");
                          ("quota", VObj [ ("sent", VNum 1);
                                           ("remaining", VNum 9) ]) ]).
Proof. vm_compute. reflexivity. Qed.



(** *** C6: no quota, no dispatch *)

(** C6, counterexample.  In the handler that knows the sentinel, a
    remaining quota of -5 (which is not above zero) is answered 500 after
    the credit service was asked. *)
Lemma C6_minus_five_is_500 :
  Part000.handler Scenario.world_exhausted Scenario.requestA [] =
    (Normal (respond 500
               [ ("error", VStr "Internal Server Error");
                 ("details", VStr "فشل التحقق من الرصيد: الحصة نفذت") ]),
     [EvReadBody; EvJsonParse; EvCreditPost (VStr "store") (VStr "s3cret")]).
Proof. vm_compute. reflexivity. Qed.

(** C6, as amended.  In every request in which the credit service is
    asked and answers a number [z <= 0], no SMS is dispatched and the
    response is 402: always in the two handlers of api/index.js, and for
    [z] other than the sentinel -5 in the two handlers that test for it.
    In particular [z = 0] is answered 402 everywhere. *)
Theorem C6_no_quota_is_402 :
  forall (w : World) (req : Request) (z : Z) (r : Response) (evs : list event),
    credit_service w = Resolved (VNum z) ->
    z <= 0 ->
    (ApiV1.handler w req [] = (Normal r, evs) ->
     existsb is_credit_post evs = true ->
     status r = 402 /\ dispatches evs = [])
    /\ (ApiV2.handler w req [] = (Normal r, evs) ->
        existsb is_credit_post evs = true ->
        status r = 402 /\ dispatches evs = [])
    /\ (z <> -5 ->
        Part000.handler w req [] = (Normal r, evs) ->
        existsb is_credit_post evs = true ->
        status r = 402 /\ dispatches evs = [])
    /\ (z <> -5 ->
        forall hp n s',
          Counter.handler hp w req {| Counter.sentCount := n; Counter.trace := [] |}
            = (Normal r, s') ->
          existsb is_credit_post (Counter.trace s') = true ->
          status r = 402 /\ dispatches (Counter.trace s') = []
          /\ Counter.sentCount s' = n).
Proof.
  intros w req z r evs Hcredit Hz.
  assert (Hle : le_zero (VNum z) = true) by (cbn; lia).
  split; [ | split; [ | split; [ intros Hz5 | intros Hz5 hp n s' ] ] ];
    enter_handler;
    rewrite Hcredit; cbn [is_number negb]; try rewrite Hle;
    run_pipeline;
    try (exfalso; lia);
    try rewrite Hle;
    intros Hrun Hasked; inversion Hrun; subst; cbn in *;
    try discriminate; auto.
Qed.

(** C6, witness: the credit service answers 0 to scenario A. *)
Lemma C6_no_quota_witness :
  exists r evs,
    ApiV1.handler Scenario.world_empty Scenario.requestA [] = (Normal r, evs)
    /\ status r = 402 /\ dispatches evs = [].
Proof.
  eexists. eexists.
  assert (Hrun : ApiV1.handler Scenario.world_empty Scenario.requestA [] =
                 (Normal (respond 402 [("error", VStr "نفاد الحصة المسموحة")]),
                  [EvReadBody; EvJsonParse; EvCreditPost (VStr "store") (VStr "s3cret")]))
    by (vm_compute; reflexivity).
  split; [ exact Hrun | ].
  apply (proj1 (C6_no_quota_is_402 Scenario.world_empty Scenario.requestA 0 _ _
                  eq_refl ltac:(lia))).
  - exact Hrun.
  - reflexivity.
Defined.

(** *** C7: fields missing from the payload *)


(** On a payload other than [null] and [undefined] no composer throws,
    whatever the topic. *)
Lemma composers_never_throw (w : World) (topic data : value) :
  nullish data = false ->
  (exists v, ApiV1.createNotificationMessage w topic data = Normal v)
  /\ (exists v, ApiV2.createMessage w topic data = Normal v)
  /\ (exists v, Part000.createNotificationMessage w topic data = Normal v).
Proof.
  intros Hdata.
  split; [ | split ]; compose_normal Hdata; cbn [bindC];
    rewrite ?or_else_Normal; eexists; reflexivity.
Qed.








(** *** C8: a credit answer that is not a number *)

(** In both handlers of api/index.js a credit answer that is not a
    number makes [checkCredit] throw; the request ends with 500 and
    nothing is dispatched. *)
Lemma checkCredit_rejects_non_numbers (w : World) (data : value) :
  credit_service w = Resolved data ->
  is_number data = false ->
  (exists evs e, ApiV1.checkCredit w [] = (Throw e, evs) /\ dispatches evs = [])
  /\ (exists evs e, ApiV2.checkCredit w [] = (Throw e, evs) /\ dispatches evs = [])
  /\ (forall req r evs,
        ApiV1.handler w req [] = (Normal r, evs) ->
        existsb is_credit_post evs = true ->
        status r = 500 /\ dispatches evs = [])
  /\ (forall req r evs,
        ApiV2.handler w req [] = (Normal r, evs) ->
        existsb is_credit_post evs = true ->
        status r = 500 /\ dispatches evs = []).
Proof.
  intros Hcredit Hnum.
  split; [ | split; [ | split ] ].
  - unfold_pipeline. rewrite Hcredit, Hnum. do 2 eexists. split; reflexivity.
  - unfold_pipeline. rewrite Hcredit, Hnum. do 2 eexists. split; reflexivity.
  - intros req r evs. enter_handler. rewrite Hcredit, Hnum. run_pipeline.
    all: intros Hrun Hasked; inversion Hrun; subst; cbn in *; try discriminate; auto.
  - intros req r evs. enter_handler. rewrite Hcredit, Hnum. run_pipeline.
    all: intros Hrun Hasked; inversion Hrun; subst; cbn in *; try discriminate; auto.
Qed.

(** C8, the failing input.  The credit service answers scenario A with
    the text [Invalid credentials].  The handler that only tests for the
    sentinel hands the text on: it is not [<= 0], a message is composed,
    the SMS is dispatched and the response is 200 with a remaining quota
    of [NaN]. *)
Theorem C8_garbled_credit_is_dispatched :
  Part000.handler Scenario.world_garbled Scenario.requestA [] =
    (Normal (respond 200
               [ ("success", VBool true);
                 ("message", VStr "SMS sent successfully");
                 ("remaining_quota", VNaN) ]),
     [ EvReadBody; EvJsonParse; EvCreditPost (VStr "store") (VStr "s3cret");
       EvSmsPost {| UserName := VStr "store";
                    Password := VStr "s3cret";
                    SMSText := VStr "📦 تم تأكيد طلبك #1001! شكراً لاختيارك متجرنا";
                    SMSLang := "ar";
                    SMSSender := VStr "Pshopi";
                    SMSReceiver := VStr "+966500000000";
                    SMSID := "1b4e28ba-2fa1-41d2-883f-0016d3cca427" |} ]).
Proof. vm_compute. reflexivity. Qed.

(** C8, on api/index.js: witness of [checkCredit_rejects_non_numbers] in
    the world whose credit service answers with a text. *)
Lemma checkCredit_rejects_text :
  exists evs e,
    ApiV1.checkCredit Scenario.world_garbled [] = (Throw e, evs)
    /\ dispatches evs = [].
Proof.
  apply (proj1 (checkCredit_rejects_non_numbers Scenario.world_garbled
                  (VStr "Invalid credentials") eq_refl eq_refl)).
Defined.

(** *** C9: a missing header is answered before anything else happens *)

(** C9, counterexample.  A GET request without any header is answered 405
    by the method gate, not 401. *)
Lemma C9_get_without_headers_is_405 :
  sent_status (ApiV1.handler Scenario.worldA (Scenario.bare "GET") []) = Some 405
  /\ sent_status (Part000.handler Scenario.worldA (Scenario.bare "GET") []) = Some 405.
Proof. split; reflexivity. Qed.

(** C9, as amended.  Every POST request that lacks one of the three
    required headers is answered 401 with an empty trace: the body is
    neither read nor parsed and neither upstream service is called.  This
    holds in all four handlers; in the counter variant the state is left
    as it was. *)
Theorem C9_post_missing_header_is_401 :
  forall (w : World) (req : Request) (h : string),
    method req = "POST" ->
    In h ApiV1.requiredHeaders ->
    headers req h = None ->
    (exists r, ApiV1.handler w req [] = (Normal r, []) /\ status r = 401)
    /\ (exists r, ApiV2.handler w req [] = (Normal r, []) /\ status r = 401)
    /\ (exists r, Part000.handler w req [] = (Normal r, []) /\ status r = 401)
    /\ (forall hp s, exists r,
          Counter.handler hp w req s = (Normal r, s) /\ status r = 401).
Proof.
  intros w req h Hpost Hin Hnone.
  assert (Hfalsy : truthy (header req h) = false)
    by (unfold header; rewrite Hnone; reflexivity).
  cbn in Hin.
  repeat split; try intros hp s;
    unfold ApiV1.handler, ApiV2.handler, Part000.handler, Counter.handler;
    rewrite Hpost; cbn [String.eqb Ascii.eqb Bool.eqb negb ApiV1.requiredHeaders filter];
    destruct Hin as [<- | [<- | [<- | []]]];
    rewrite ?Hfalsy; unfold_pipeline;
    cbn [negb orb filter]; rewrite ?orb_true_r; cbn [orb];
    repeat (case_step; cbn [negb orb List.length Nat.ltb Nat.leb]);
    eexists; split; reflexivity.
Qed.

(** C9, witness: a POST request without headers. *)
Lemma C9_post_missing_header_witness :
  (exists r, ApiV1.handler Scenario.worldA (Scenario.bare "POST") [] = (Normal r, [])
             /\ status r = 401)
  /\ (exists r, ApiV2.handler Scenario.worldA (Scenario.bare "POST") [] = (Normal r, [])
                /\ status r = 401)
  /\ (exists r, Part000.handler Scenario.worldA (Scenario.bare "POST") [] = (Normal r, [])
                /\ status r = 401)
  /\ (forall hp s, exists r,
        Counter.handler hp Scenario.worldA (Scenario.bare "POST") s = (Normal r, s)
        /\ status r = 401).
Proof.
  apply (C9_post_missing_header_is_401 Scenario.worldA (Scenario.bare "POST")
           "x-shopify-topic").
  - reflexivity.
  - simpl. auto.
  - reflexivity.
Defined.

(** *** C10: the session counter *)

(** A gateway reply that passes the test [Status === "Success"]. *)
Lemma accepted_reply (data st : value) :
  OptGet data "Status" = Normal st ->
  negb (is_string st "Success") = false ->
  nullish data = false /\ is_string (get data "Status") "Success" = true.
Proof.
  rewrite OptGet_total. intros Hst Hok.
  destruct (nullish data); inversion Hst; subst.
  - discriminate Hok.
  - split; [ reflexivity | ].
    destruct (is_string (get data "Status") "Success"); [ reflexivity | discriminate Hok ].
Qed.

Section CounterProperties.
Variable hp : Counter.Helpers.

(** One request: the counter stays, or it grows by one, from below the
    ceiling, after a dispatch that the gateway accepted, answered by 200. *)
Lemma handler_step (w : World) (req : Request) (s : Counter.St) :
  exists r s',
    Counter.handler hp w req s = (Normal r, s')
    /\ (Counter.sentCount s' = Counter.sentCount s
        \/ Counter.sentCount s' = Counter.sentCount s + 1
           /\ Counter.sentCount s < Counter.MAX_QUOTA
           /\ status r = 200
           /\ exists p reply,
                dispatches (Counter.trace s') = (dispatches (Counter.trace s) ++ [p])%list
                /\ gateway_success w reply).
Proof.
  destruct s as [n tr].
  enter_handler. run_pipeline.
  all: do 2 eexists; (split; [ reflexivity | ]); cbn [Counter.sentCount Counter.trace].
  all: try (left; reflexivity).
  all: right; split; [ reflexivity | ];
    split; [ apply Z.leb_gt; assumption | ];
    split; [ reflexivity | ];
    do 2 eexists; split;
    [ rewrite !dispatches_app; cbn [dispatches flat_map app];
      rewrite ?app_nil_r; reflexivity
    | split; [ eassumption | eapply accepted_reply; eassumption ] ].
Qed.



End CounterProperties.

(** The counter never leaves [0 .. MAX_QUOTA], one request at a time. *)
Lemma handler_keeps_bounds (hp : Counter.Helpers) (w : World) (req : Request)
    (s : Counter.St) :
  0 <= Counter.sentCount s <= Counter.MAX_QUOTA ->
  0 <= Counter.sentCount (snd (Counter.handler hp w req s)) <= Counter.MAX_QUOTA.
Proof.
  intros Hbounds.
  destruct (handler_step hp w req s) as [r [s' [Hrun Hcases]]].
  rewrite Hrun. cbn [snd].
  destruct Hcases as [Hsame | [Hnext [Hbelow _]]]; lia.
Qed.

Lemma serve_keeps_bounds (hp : Counter.Helpers) (reqs : list (World * Request)) :
  forall s,
    0 <= Counter.sentCount s <= Counter.MAX_QUOTA ->
    0 <= Counter.sentCount (snd (Counter.serve hp reqs s)) <= Counter.MAX_QUOTA.
Proof.
  induction reqs as [ | [w req] rest IH]; intros s Hbounds.
  - exact Hbounds.
  - cbn [Counter.serve].
    pose proof (handler_keeps_bounds hp w req s Hbounds) as Hstep.
    destruct (Counter.handler hp w req s) as [r s1]. cbn [snd] in Hstep.
    specialize (IH s1 Hstep).
    destruct (Counter.serve hp rest s1) as [rs s2]. exact IH.
Qed.




(** Eleven times scenario A from the start of the process: ten messages
    go out, the eleventh request is answered 500. *)
Example eleven_requests :
  let run := Counter.serve (Scenario.helpers Scenario.worldA)
               (repeat (Scenario.worldA, Scenario.requestA) 11) Counter.initial in
  map (fun r => sent_status (r, tt)) (fst run)
    = (repeat (Some 200) 10 ++ [Some 500])%list
  /\ Counter.sentCount (snd run) = 10
  /\ List.length (dispatches (Counter.trace (snd run))) = 10%nat.
Proof. vm_compute. repeat split. Qed.

(** As the file stands, its helpers are undefined names: every POST
    request with the three headers ends in the catch-all. *)
Example undefined_helpers_500 :
  Counter.handler Scenario.undefined_helpers Scenario.worldA Scenario.requestA
    Counter.initial
  = (Normal (respond 500 [ ("error", VStr "Internal Server Error");
                           ("details", VStr "getRawBody is not defined") ]),
     Counter.initial).
Proof. reflexivity. Qed.

(** *** Every request gets exactly one response *)

(** Whatever happens inside, the catch-all turns it into a response: no
    handler lets an exception escape. *)
Lemma handlers_respond (w : World) (req : Request) :
  (exists r evs, ApiV1.handler w req [] = (Normal r, evs))
  /\ (exists r evs, ApiV2.handler w req [] = (Normal r, evs))
  /\ (exists r evs, Part000.handler w req [] = (Normal r, evs)).
Proof.
  split; [ | split ]; enter_handler; run_pipeline; do 2 eexists; reflexivity.
Qed.

(** ** Further properties of the handlers *)

(** *** More proof tools *)

(** As [unfold_pipeline], and through property access as well. *)
Ltac unfold_deep :=
  unfold_pipeline; cbv beta iota zeta delta [OptGet GetV].

Ltac run_deep :=
  unfold_deep;
  repeat (case_step; unfold_deep; cbn [app Counter.sentCount Counter.trace] in * ).

(** Turn the tests a run went through into facts about truthiness. *)
Ltac truthy_facts :=
  repeat match goal with
         | H : negb _ = false |- _ => apply negb_false_iff in H
         end.

(** Decide [gateway_ok] from what the run saw of the gateway's answer. *)
Ltac settle_gateway :=
  unfold gateway_ok;
  repeat match goal with
         | H : sms_gateway _ = _ |- _ => rewrite H
         | H : nullish _ = _ |- _ => rewrite H
         | H : negb (is_string _ _) = _ |- _ =>
             apply (f_equal negb) in H; rewrite negb_involutive in H; cbn [negb] in H;
             rewrite H
         end;
  cbn [negb andb].

(** *** Helper lemmas *)

(** The five phone paths lead nowhere in a payload that is no object. *)
Lemma resolve_non_object (data : value) (path : list string) :
  is_object data = false -> In path five_paths -> resolve data path = VUndefined.
Proof.
  intros Hdata Hpath.
  assert (Hstep : forall k, (if nullish data then VUndefined else get data k) = VUndefined)
    by (intros k; destruct data; try reflexivity; discriminate Hdata).
  cbn in Hpath.
  destruct Hpath as [<- | [<- | [<- | [<- | [<- | []]]]]];
    unfold resolve; cbn [fold_left]; rewrite Hstep; reflexivity.
Qed.

Lemma extractors_on_non_objects (data : value) :
  is_object data = false ->
  ApiV1.extractPhoneNumber data = Normal VNull
  /\ ApiV2.extractPhoneNumber data = Normal VNull
  /\ Part000.extractPhoneNumber data = Normal VUndefined.
Proof.
  intros Hdata.
  assert (H1 := resolve_non_object data ["customer"; "phone"] Hdata ltac:(cbn; auto)).
  assert (H2 := resolve_non_object data ["order"; "customer"; "phone"] Hdata
                  ltac:(cbn; auto)).
  assert (H3 := resolve_non_object data ["checkout"; "billing_address"; "phone"] Hdata
                  ltac:(cbn; auto)).
  assert (H4 := resolve_non_object data ["billing_address"; "phone"] Hdata
                  ltac:(cbn; auto)).
  assert (H5 := resolve_non_object data ["shipping_address"; "phone"] Hdata
                  ltac:(cbn; auto 6)).
  split; [ | split ].
  - unfold ApiV1.extractPhoneNumber. rewrite extractPhoneNumber_loop_finds.
    cbn [ApiV1.phonePaths map].
    change (split "." "customer.phone") with ["customer"; "phone"].
    change (split "." "order.customer.phone") with ["order"; "customer"; "phone"].
    change (split "." "checkout.billing_address.phone")
      with ["checkout"; "billing_address"; "phone"].
    change (split "." "billing_address.phone") with ["billing_address"; "phone"].
    change (split "." "shipping_address.phone") with ["shipping_address"; "phone"].
    rewrite H1, H2, H3, H4, H5. reflexivity.
  - unfold ApiV2.extractPhoneNumber.
    rewrite !(proj2 (chain_resolve data _)), H1, H2, H3, H4, H5. reflexivity.
  - unfold Part000.extractPhoneNumber.
    rewrite !(proj1 (chain_resolve data _)), H1, H2, H3. reflexivity.
Qed.

(** A phone is only ever found in an object. *)
Lemma phone_needs_object (data phone : value) :
  truthy phone = true ->
  (ApiV1.extractPhoneNumber data = Normal phone -> nullish data = false)
  /\ (ApiV2.extractPhoneNumber data = Normal phone -> nullish data = false)
  /\ (Part000.extractPhoneNumber data = Normal phone -> nullish data = false).
Proof.
  intros Hphone.
  destruct (is_object data) eqn:Hobj.
  - destruct data; try discriminate Hobj. repeat split.
  - destruct (extractors_on_non_objects data Hobj) as [H1 [H2 H3]].
    rewrite H1, H2, H3.
    split; [ | split ]; intros Hfound; inversion Hfound; subst; discriminate Hphone.
Qed.

(** What [extractPhoneNumber] of the first document returns, when it
    returns something, matches the phone pattern. *)
Lemma found_phone_is_valid (data phone : value) :
  ApiV1.extractPhoneNumber data = Normal phone ->
  truthy phone = true ->
  is_phone phone = true.
Proof.
  unfold ApiV1.extractPhoneNumber. rewrite extractPhoneNumber_loop_finds.
  unfold first_or. intros Hfound Hphone.
  destruct (find is_phone _) as [v | ] eqn:Hfind; inversion Hfound; subst.
  - apply find_some in Hfind. exact (proj2 Hfind).
  - discriminate Hphone.
Qed.

(** The three extractors written over [resolve]. *)
Lemma extractors_resolve (data : value) :
  ApiV1.extractPhoneNumber data
    = Normal (first_or is_phone VNull (map (resolve data) five_paths))
  /\ ApiV2.extractPhoneNumber data
     = Normal (first_or truthy VNull (map (resolve data) five_paths))
  /\ Part000.extractPhoneNumber data
     = Normal (first_or truthy (resolve data ["checkout"; "billing_address"; "phone"])
                 (map (resolve data) three_paths)).
Proof.
  split; [ | split ].
  - unfold ApiV1.extractPhoneNumber. rewrite extractPhoneNumber_loop_finds. reflexivity.
  - unfold ApiV2.extractPhoneNumber.
    rewrite !(proj2 (chain_resolve data _)). cbn [bindC].
    unfold or_else, first_or. cbn [five_paths map find].
    repeat (case_step; cbn [bindC]); reflexivity.
  - unfold Part000.extractPhoneNumber.
    rewrite !(proj1 (chain_resolve data _)). cbn [bindC].
    unfold or_else, first_or. cbn [three_paths five_paths firstn map find].
    repeat (case_step; cbn [bindC]); reflexivity.
Qed.

(** A request that passed the method gate and one of the three header
    gates is well formed. *)
Lemma header_gate (req : Request) :
  ((0 <? List.length (filter (fun h => negb (truthy (header req h)))
                        ApiV1.requiredHeaders))%nat = false
   \/ negb (truthy (header req "x-shopify-hmac-sha256"))
      || negb (truthy (header req "x-shopify-topic"))
      || negb (truthy (header req "x-shopify-shop-domain")) = false
   \/ negb (truthy (header req "x-shopify-topic"))
      || negb (truthy (header req "x-shopify-shop-domain"))
      || negb (truthy (header req "x-shopify-hmac-sha256")) = false) ->
  negb (method req =? "POST")%string = false ->
  well_formed req.
Proof.
  intros Hgate Hmethod. unfold well_formed.
  apply negb_false_iff, String.eqb_eq in Hmethod.
  split; [ exact Hmethod | ].
  unfold ApiV1.requiredHeaders in Hgate. cbn [filter] in Hgate.
  destruct (truthy (header req "x-shopify-topic"));
    destruct (truthy (header req "x-shopify-shop-domain"));
    destruct (truthy (header req "x-shopify-hmac-sha256"));
    cbn in Hgate; destruct Hgate as [Hgate | [Hgate | Hgate]];
    try discriminate Hgate; repeat split.
Qed.

Lemma timingSafeEqual_true (a b : bytes) :
  timingSafeEqual a b = Normal true -> a = b.
Proof.
  unfold timingSafeEqual.
  destruct (List.length a =? List.length b)%nat; [ | discriminate ].
  destruct (list_eq_dec Byte.byte_eq_dec a b); [ auto | discriminate ].
Qed.

(** A throw the run cannot have met: from a composer applied to the
    payload a phone was found in, from reading the identifier of an
    accepted gateway answer, or from optional chaining. *)
Ltac impossible_throw :=
  truthy_facts;
  match goal with
  | Hx : ApiV1.extractPhoneNumber ?d = Normal ?p, Ht : truthy ?p = true,
    Hc : ApiV1.createNotificationMessage ?w0 ?t ?d = Throw _ |- _ =>
      destruct (proj1 (composers_never_throw w0 t d
                         (proj1 (phone_needs_object d p Ht) Hx))) as [? Hv];
      rewrite Hv in Hc; discriminate Hc
  | Hs : OptGet ?d "Status" = Normal ?st, Hok : is_string ?st "Success" = true,
    Hc : GetV ?d "SMSID" = Throw _ |- _ =>
      apply (f_equal negb) in Hok; cbn [negb] in Hok;
      destruct (accepted_reply d st Hs Hok) as [Hd _];
      rewrite (GetV_object _ _ Hd) in Hc; discriminate Hc
  | Hc : OptGet _ _ = Throw _ |- _ => rewrite OptGet_total in Hc; discriminate Hc
  end.

(** *** The order of the effects and the status codes *)

(** Whatever the request and whatever the outside world answers, the
    effects of one request are an initial segment of: read the body, parse
    it, ask the credit service, call the SMS gateway.  In particular each
    upstream service is called at most once per request, the gateway never
    before the credit service, and neither before the body was parsed. *)
Theorem effects_in_pipeline_order (w : World) (req : Request) :
  pipeline_shape (snd (ApiV1.handler w req [])) = true
  /\ pipeline_shape (snd (ApiV2.handler w req [])) = true
  /\ pipeline_shape (snd (Part000.handler w req [])) = true
  /\ (forall hp n,
        counter_shape
          (Counter.trace
             (snd (Counter.handler hp w req
                     {| Counter.sentCount := n; Counter.trace := [] |}))) = true).
Proof.
  split; [ | split; [ | split; [ | intros hp n ] ] ];
    enter_handler; run_pipeline; reflexivity.
Qed.

(** Every request is answered with one of the six status codes 200, 400,
    401, 402, 405 and 500, in all four handlers. *)
Theorem status_is_known (w : World) (req : Request) :
  (exists r evs, ApiV1.handler w req [] = (Normal r, evs) /\ known_status (status r) = true)
  /\ (exists r evs, ApiV2.handler w req [] = (Normal r, evs)
                    /\ known_status (status r) = true)
  /\ (exists r evs, Part000.handler w req [] = (Normal r, evs)
                    /\ known_status (status r) = true)
  /\ (forall hp s, exists r s',
        Counter.handler hp w req s = (Normal r, s') /\ known_status (status r) = true).
Proof.
  split; [ | split; [ | split; [ | intros hp s ] ] ];
    enter_handler; run_pipeline; do 2 eexists; split; reflexivity.
Qed.

(** *** Before the upstream services are asked *)

(** A POST request in which one of the three required headers is present
    and empty is answered like one in which it is missing: 401, the body
    is not read. *)
Theorem empty_header_is_401 (w : World) (req : Request) (h : string) :
  method req = "POST" ->
  In h ApiV1.requiredHeaders ->
  headers req h = Some "" ->
  (exists r, ApiV1.handler w req [] = (Normal r, []) /\ status r = 401)
  /\ (exists r, ApiV2.handler w req [] = (Normal r, []) /\ status r = 401)
  /\ (exists r, Part000.handler w req [] = (Normal r, []) /\ status r = 401)
  /\ (forall hp s, exists r,
        Counter.handler hp w req s = (Normal r, s) /\ status r = 401).
Proof.
  intros Hpost Hin Hempty.
  assert (Hfalsy : truthy (header req h) = false)
    by (unfold header; rewrite Hempty; reflexivity).
  cbn in Hin.
  split; [ | split; [ | split; [ | intros hp s ] ] ];
    enter_handler; rewrite Hpost;
    cbn [String.eqb Ascii.eqb Bool.eqb negb filter];
    destruct Hin as [<- | [<- | [<- | []]]];
    rewrite ?Hfalsy; cbn [negb orb filter]; rewrite ?orb_true_r; cbn [orb];
    repeat (case_step; cbn [negb orb List.length Nat.ltb Nat.leb]);
    eexists; split; reflexivity.
Qed.

(** A signed request with an empty topic. *)
Lemma empty_header_is_401_witness :
  exists r, ApiV1.handler Scenario.worldA Cases.empty_topic [] = (Normal r, [])
            /\ status r = 401.
Proof.
  apply (proj1 (empty_header_is_401 Scenario.worldA Cases.empty_topic "x-shopify-topic"
                  eq_refl ltac:(simpl; auto) eq_refl)).
Defined.

(** A body stream that fails, and a verified body that is no JSON, end
    in the catch-all: 500 carrying the message of the error, and no
    upstream service is called. *)
Theorem unreadable_body_is_500 (w : World) (req : Request) :
  well_formed req ->
  (forall m, body req = StreamError m ->
     (exists r, ApiV1.handler w req [] = (Normal r, [EvReadBody])
                /\ status r = 500 /\ get (json r) "details" = VStr m)
     /\ (exists r, ApiV2.handler w req [] = (Normal r, [EvReadBody])
                   /\ status r = 500 /\ get (json r) "message" = VStr m)
     /\ (exists r, Part000.handler w req [] = (Normal r, [EvReadBody])
                   /\ status r = 500 /\ get (json r) "details" = VStr m))
  /\ (forall rawBody m,
        body req = StreamEnd rawBody ->
        JSON_parse w rawBody = inl m ->
        (ApiV1.verifyHmac w (header req "x-shopify-hmac-sha256") rawBody = Normal true ->
         exists r, ApiV1.handler w req [] = (Normal r, [EvReadBody; EvJsonParse])
                   /\ status r = 500 /\ get (json r) "details" = VStr m)
        /\ (ApiV2.verifyHmac w (header req "x-shopify-hmac-sha256") rawBody = Normal true ->
            exists r, ApiV2.handler w req [] = (Normal r, [EvReadBody; EvJsonParse])
                      /\ status r = 500 /\ get (json r) "message" = VStr m)
        /\ (Part000.verifyHmac w (header req "x-shopify-hmac-sha256") rawBody
              = Normal true ->
            exists r, Part000.handler w req [] = (Normal r, [EvReadBody; EvJsonParse])
                      /\ status r = 500 /\ get (json r) "details" = VStr m)).
Proof.
  intros [Hmethod [Htopic [Hdomain Hhmac]]].
  split.
  - intros m Hbody.
    split; [ | split ]; enter_handler; use_facts;
      eexists; (split; [ reflexivity | ]); split; reflexivity.
  - intros rawBody m Hbody Hjson.
    split; [ | split ]; intros Hverify; enter_handler; use_facts;
      eexists; (split; [ reflexivity | ]); split; reflexivity.
Qed.

(** Scenario A over a stream that aborts, and a signed body that is no
    JSON. *)
Lemma unreadable_body_is_500_witness :
  (exists r, ApiV1.handler Scenario.worldA Cases.broken_stream [] = (Normal r, [EvReadBody])
             /\ status r = 500 /\ get (json r) "details" = VStr "aborted")
  /\ (exists r, ApiV2.handler Cases.world_broken (Cases.signed "orders/create" "{oops") []
                = (Normal r, [EvReadBody; EvJsonParse])
                /\ status r = 500
                /\ get (json r) "message" = VStr "Unexpected token o in JSON at position 1").
Proof.
  split.
  - apply (proj1 (proj1 (unreadable_body_is_500 Scenario.worldA Cases.broken_stream
                           ltac:(repeat split))
                    "aborted" eq_refl)).
  - apply (proj1 (proj2 (proj2 (unreadable_body_is_500 Cases.world_broken
                                  (Cases.signed "orders/create" "{oops")
                                  ltac:(repeat split))
                           (Reference.string_bytes "{oops")
                           "Unexpected token o in JSON at position 1"
                           eq_refl ltac:(vm_compute; reflexivity)))).
    vm_compute. reflexivity.
Defined.

(** A verified payload in which the extractor finds no phone is answered
    400 before any upstream service is called. *)
Theorem no_phone_is_400 (w : World) (req : Request) (rawBody : bytes) (data none : value) :
  well_formed req ->
  body req = StreamEnd rawBody ->
  JSON_parse w rawBody = inr data ->
  truthy none = false ->
  (ApiV1.verifyHmac w (header req "x-shopify-hmac-sha256") rawBody = Normal true ->
   ApiV1.extractPhoneNumber data = Normal none ->
   exists r, ApiV1.handler w req [] = (Normal r, [EvReadBody; EvJsonParse])
             /\ status r = 400)
  /\ (ApiV2.verifyHmac w (header req "x-shopify-hmac-sha256") rawBody = Normal true ->
      ApiV2.extractPhoneNumber data = Normal none ->
      exists r, ApiV2.handler w req [] = (Normal r, [EvReadBody; EvJsonParse])
                /\ status r = 400)
  /\ (Part000.verifyHmac w (header req "x-shopify-hmac-sha256") rawBody = Normal true ->
      Part000.extractPhoneNumber data = Normal none ->
      exists r, Part000.handler w req [] = (Normal r, [EvReadBody; EvJsonParse])
                /\ status r = 400).
Proof.
  intros [Hmethod [Htopic [Hdomain Hhmac]]] Hbody Hjson Hfalsy.
  split; [ | split ]; intros Hverify Hnone;
    enter_handler; use_facts; eexists; split; reflexivity.
Qed.

(** A signed body [{}]. *)
Lemma no_phone_is_400_witness :
  exists r, ApiV2.handler Cases.world_no_phone (Cases.signed "orders/create" "{}") []
            = (Normal r, [EvReadBody; EvJsonParse])
            /\ status r = 400.
Proof.
  apply (proj1 (proj2 (no_phone_is_400 Cases.world_no_phone
                         (Cases.signed "orders/create" "{}")
                         (Reference.string_bytes "{}") (VObj []) VNull
                         ltac:(repeat split) eq_refl ltac:(vm_compute; reflexivity)
                         eq_refl))).
  - vm_compute. reflexivity.
  - reflexivity.
Defined.

(** A verified body that decodes to something else than an object
    ([null], a number, a text, a truth value, a list) makes no extractor
    throw: the request is answered 400, not 500. *)
Theorem non_object_payload_is_400 (w : World) (req : Request) (rawBody : bytes)
    (data : value) :
  well_formed req ->
  body req = StreamEnd rawBody ->
  JSON_parse w rawBody = inr data ->
  is_object data = false ->
  (ApiV1.verifyHmac w (header req "x-shopify-hmac-sha256") rawBody = Normal true ->
   exists r, ApiV1.handler w req [] = (Normal r, [EvReadBody; EvJsonParse])
             /\ status r = 400)
  /\ (ApiV2.verifyHmac w (header req "x-shopify-hmac-sha256") rawBody = Normal true ->
      exists r, ApiV2.handler w req [] = (Normal r, [EvReadBody; EvJsonParse])
                /\ status r = 400)
  /\ (Part000.verifyHmac w (header req "x-shopify-hmac-sha256") rawBody = Normal true ->
      exists r, Part000.handler w req [] = (Normal r, [EvReadBody; EvJsonParse])
                /\ status r = 400).
Proof.
  intros [Hmethod [Htopic [Hdomain Hhmac]]] Hbody Hjson Hdata.
  destruct (extractors_on_non_objects data Hdata) as [H1 [H2 H3]].
  split; [ | split ]; intros Hverify;
    enter_handler; use_facts; eexists; split; reflexivity.
Qed.

(** A signed body [null]. *)
Lemma non_object_payload_is_400_witness :
  exists r, ApiV1.handler Cases.world_null (Cases.signed "orders/create" "null") []
            = (Normal r, [EvReadBody; EvJsonParse])
            /\ status r = 400.
Proof.
  apply (proj1 (non_object_payload_is_400 Cases.world_null
                  (Cases.signed "orders/create" "null")
                  (Reference.string_bytes "null") VNull
                  ltac:(repeat split) eq_refl ltac:(vm_compute; reflexivity) eq_refl)).
  vm_compute. reflexivity.
Defined.

(** *** The signature check in its variants *)

(** The two unguarded [verifyHmac] are the same function.  What the
    guarded one accepts, they accept; with a non-empty secret the guarded
    one answers as they do whenever they answer; and without a secret, or
    with an empty one, the guarded one rejects every request.  An accepted
    signature is a text that decodes to the bytes the digest of the body
    under the secret decodes to. *)
Theorem verifyHmac_variants (w : World) (hmacHeader : value) (body : bytes) :
  ApiV2.verifyHmac w hmacHeader body = Part000.verifyHmac w hmacHeader body
  /\ (ApiV1.verifyHmac w hmacHeader body = Normal true ->
      Part000.verifyHmac w hmacHeader body = Normal true)
  /\ (forall ok, Part000.verifyHmac w hmacHeader body = Normal ok ->
        truthy (env_value w "SHOPIFY_WEBHOOK_SECRET") = true ->
        ApiV1.verifyHmac w hmacHeader body = Normal ok)
  /\ (truthy (env_value w "SHOPIFY_WEBHOOK_SECRET") = false ->
      ApiV1.verifyHmac w hmacHeader body = Normal false)
  /\ (Part000.verifyHmac w hmacHeader body = Normal true ->
      exists secret given,
        env w "SHOPIFY_WEBHOOK_SECRET" = Some secret
        /\ hmacHeader = VStr given
        /\ base64_decode w given
           = base64_decode w (base64_encode w (hmac_sha256 w secret body))).
Proof.
  unfold ApiV1.verifyHmac, ApiV2.verifyHmac, Part000.verifyHmac, env_value,
    createHmac, Buffer_from_base64.
  split; [ reflexivity | ].
  split; [ | split; [ | split ] ].
  - destruct (env w "SHOPIFY_WEBHOOK_SECRET") as [k | ]; cbn [truthy negb bindC].
    + destruct (negb (k =? "")%string); cbn [negb]; [ | discriminate ].
      destruct hmacHeader; cbn [bindC]; try discriminate.
      destruct (timingSafeEqual _ _) as [[ | ] | e]; intros H;
        try discriminate H; reflexivity.
    + discriminate.
  - intros ok.
    destruct (env w "SHOPIFY_WEBHOOK_SECRET") as [k | ]; cbn [truthy negb bindC];
      [ | discriminate ].
    intros Hrun Hset. rewrite Hset. cbn [negb]. rewrite Hrun. reflexivity.
  - destruct (env w "SHOPIFY_WEBHOOK_SECRET") as [k | ]; cbn [truthy negb bindC].
    + intros ->. reflexivity.
    + reflexivity.
  - destruct (env w "SHOPIFY_WEBHOOK_SECRET") as [k | ]; cbn [bindC]; [ | discriminate ].
    destruct hmacHeader; cbn [bindC]; try discriminate.
    intros Heq. apply timingSafeEqual_true in Heq.
    do 2 eexists. split; [ reflexivity | ]. split; [ reflexivity | ].
    symmetry. exact Heq.
Qed.

(** *** The phone extractors against each other *)

(** A phone the three-path extractor finds is the phone the five-path
    extractor without pattern finds; if it matches the phone pattern it is
    also the phone the validating extractor finds.  What the validating
    extractor returns matches the pattern, and the five-path extractor
    without pattern then finds a phone as well. *)
Theorem extractors_agree (data phone : value) :
  (Part000.extractPhoneNumber data = Normal phone ->
   truthy phone = true ->
   ApiV2.extractPhoneNumber data = Normal phone
   /\ (is_phone phone = true -> ApiV1.extractPhoneNumber data = Normal phone))
  /\ (ApiV2.extractPhoneNumber data = Normal phone ->
      is_phone phone = true ->
      ApiV1.extractPhoneNumber data = Normal phone)
  /\ (ApiV1.extractPhoneNumber data = Normal phone ->
      truthy phone = true ->
      is_phone phone = true
      /\ exists other, ApiV2.extractPhoneNumber data = Normal other
                       /\ truthy other = true).
Proof.
  destruct (extractors_resolve data) as [H1 [H2 H3]].
  rewrite H1, H2, H3. clear H1 H2 H3.
  unfold first_or, is_phone. cbn [three_paths five_paths firstn map find].
  generalize (resolve data ["customer"; "phone"]),
    (resolve data ["order"; "customer"; "phone"]),
    (resolve data ["checkout"; "billing_address"; "phone"]),
    (resolve data ["billing_address"; "phone"]),
    (resolve data ["shipping_address"; "phone"]).
  intros p1 p2 p3 p4 p5.
  destruct (truthy p1) eqn:T1; destruct (truthy p2) eqn:T2; destruct (truthy p3) eqn:T3;
    cbn [andb].
  all: split; [ | split ].
  all: repeat case_step.
  all: intros Hfound Hsecond; inversion Hfound; subst; cbn [truthy andb] in *.
  all: rewrite ?T1, ?T2, ?T3 in *; cbn [andb] in *.
  all: try discriminate; try congruence.
  all: try (split; [ reflexivity | ]; intros Hvalid; rewrite ?T1, ?T2, ?T3 in *;
            cbn [andb] in *; try congruence; reflexivity).
  all: try reflexivity.
  all: try (split; [ try assumption; try reflexivity
                   | eexists; split; [ reflexivity | try assumption; try reflexivity ] ]).
  all: repeat match goal with
              | H : _ && _ = true |- _ => apply andb_true_iff in H; destruct H
              end.
  all: try congruence.
  all: try (apply andb_true_iff; split; congruence).
Qed.

(** The payload of scenario A read by the three extractors. *)
Lemma extractors_agree_witness :
  ApiV2.extractPhoneNumber Scenario.payload = Normal Scenario.phone
  /\ ApiV1.extractPhoneNumber Scenario.payload = Normal Scenario.phone.
Proof.
  destruct (proj1 (extractors_agree Scenario.payload Scenario.phone) eq_refl eq_refl)
    as [Hv2 Hv1].
  split; [ exact Hv2 | apply Hv1; reflexivity ].
Defined.

(** *** What is dispatched, and to whom *)



(** Nothing is sent on behalf of a request that was not accepted.  Every
    call to the SMS gateway belongs to a well-formed request whose
    signature verified; its receiver is the phone the extractor found in
    the signed payload (in the first document of api/index.js a value
    matching the phone pattern), its text the message composed for the
    topic header, and the sender and the credentials come from the
    environment. *)
Theorem dispatch_requires_acceptance (w : World) (req : Request) (r : Response)
    (evs : list event) (p : SmsPayload) :
  In p (dispatches evs) ->
  (ApiV1.handler w req [] = (Normal r, evs) ->
   exists data phone msg,
     accepted ApiV1.verifyHmac ApiV1.extractPhoneNumber w req data phone
     /\ ApiV1.createNotificationMessage w (header req "x-shopify-topic") data = Normal msg
     /\ truthy msg = true
     /\ is_phone phone = true
     /\ p = sms_payload w phone msg)
  /\ (ApiV2.handler w req [] = (Normal r, evs) ->
      exists data phone msg,
        accepted ApiV2.verifyHmac ApiV2.extractPhoneNumber w req data phone
        /\ ApiV2.createMessage w (header req "x-shopify-topic") data = Normal msg
        /\ truthy msg = true
        /\ p = sms_payload w phone msg)
  /\ (Part000.handler w req [] = (Normal r, evs) ->
      exists data phone msg,
        accepted Part000.verifyHmac Part000.extractPhoneNumber w req data phone
        /\ Part000.createNotificationMessage w (header req "x-shopify-topic") data
           = Normal msg
        /\ truthy msg = true
        /\ p = sms_payload w phone msg).
Proof.
  intros Hin.
  split; [ | split ]; revert Hin; enter_handler; run_pipeline;
    intros Hin Hrun; inversion Hrun; subst; clear Hrun;
    cbn in Hin; try contradiction;
    destruct Hin as [<- | []];
    do 3 eexists;
    (split;
     [ split;
       [ apply header_gate; [ auto | assumption ]
       | eexists; split; [ eassumption | ];
         truthy_facts; subst;
         split; [ eassumption | ]; split; [ eassumption | ];
         split; [ eassumption | assumption ] ]
     | ]);
    truthy_facts;
    (split; [ eassumption | ]); (split; [ assumption | ]);
    first [ split; [ eapply found_phone_is_valid; eassumption | reflexivity ]
          | reflexivity ].
Qed.

(** The SMS of scenario A when the gateway refuses it. *)
Lemma dispatch_requires_acceptance_witness :
  exists data phone msg,
    accepted ApiV1.verifyHmac ApiV1.extractPhoneNumber Cases.world_refused
      Scenario.requestA data phone
    /\ ApiV1.createNotificationMessage Cases.world_refused
         (header Scenario.requestA "x-shopify-topic") data = Normal msg
    /\ truthy msg = true
    /\ is_phone phone = true
    /\ sms_payload Cases.world_refused Scenario.phone
         (VStr "📦 تم تأكيد طلبك #1001! شكراً لثقتك")
       = sms_payload Cases.world_refused phone msg.
Proof.
  apply (proj1 (dispatch_requires_acceptance Cases.world_refused Scenario.requestA
                  (respond 500 [ ("error", VStr "خطأ داخلي");
                                 ("details", VStr "فشل إرسال الرسالة") ])
                  (EvReadBody :: calls_after_parsing Cases.world_refused Scenario.phone
                                   (VStr "📦 تم تأكيد طلبك #1001! شكراً لثقتك"))
                  (sms_payload Cases.world_refused Scenario.phone
                     (VStr "📦 تم تأكيد طلبك #1001! شكراً لثقتك"))
                  ltac:(vm_compute; auto))).
  vm_compute. reflexivity.
Defined.

(** A response is 200 only after exactly one call to the gateway whose
    answer carried [Status: "Success"]; a call the gateway rejects or
    answers otherwise ends in 500; and without a call the response is
    never 200. *)
Theorem dispatch_outcome (w : World) (req : Request) (r : Response) (evs : list event) :
  (ApiV1.handler w req [] = (Normal r, evs)
   \/ ApiV2.handler w req [] = (Normal r, evs)
   \/ Part000.handler w req [] = (Normal r, evs)) ->
  dispatches evs = [] /\ status r <> 200
  \/ exists p, dispatches evs = [p]
               /\ (gateway_ok w = true /\ status r = 200
                   \/ gateway_ok w = false /\ status r = 500).
Proof.
  intros [Hrun | [Hrun | Hrun]]; revert Hrun; enter_handler; run_deep;
    intros Hrun; inversion Hrun; subst; clear Hrun;
    try discriminate;
    first [ left; split; [ reflexivity | cbn; discriminate ]
          | right; eexists; split; [ reflexivity | ];
            first [ left; split; [ settle_gateway; reflexivity | reflexivity ]
                  | right; split; [ settle_gateway; reflexivity | reflexivity ] ] ].
Qed.

(** Scenario A when the gateway cannot be reached. *)
Lemma dispatch_outcome_witness :
  exists p,
    dispatches (EvReadBody :: calls_after_parsing Cases.world_unreachable Scenario.phone
                                (VStr "📦 تم تأكيد طلبك #1001! شكراً لاختيارك متجرنا")) = [p]
    /\ gateway_ok Cases.world_unreachable = false.
Proof.
  destruct (dispatch_outcome Cases.world_unreachable Scenario.requestA
              (respond 500 [ ("error", VStr "Internal Server Error");
                             ("details", VStr "connect ETIMEDOUT") ])
              (EvReadBody :: calls_after_parsing Cases.world_unreachable Scenario.phone
                               (VStr "📦 تم تأكيد طلبك #1001! شكراً لاختيارك متجرنا"))
              ltac:(right; right; vm_compute; reflexivity))
    as [[Hnone _] | [p [Hone [[Hok _] | [Hfailed _]]]]].
  - discriminate Hnone.
  - discriminate Hok.
  - exists p. split; [ exact Hone | exact Hfailed ].
Defined.

(** A topic without a message is answered 400 after the credit service
    was asked and before anything is sent. *)
Theorem no_message_is_400 (w : World) (req : Request) (data phone quota none : value) :
  credit_service w = Resolved quota ->
  is_number quota = true ->
  le_zero quota = false ->
  truthy none = false ->
  (accepted ApiV1.verifyHmac ApiV1.extractPhoneNumber w req data phone ->
   ApiV1.createNotificationMessage w (header req "x-shopify-topic") data = Normal none ->
   exists r u p,
     ApiV1.handler w req [] = (Normal r, [EvReadBody; EvJsonParse; EvCreditPost u p])
     /\ status r = 400)
  /\ (accepted ApiV2.verifyHmac ApiV2.extractPhoneNumber w req data phone ->
      ApiV2.createMessage w (header req "x-shopify-topic") data = Normal none ->
      exists r u p,
        ApiV2.handler w req [] = (Normal r, [EvReadBody; EvJsonParse; EvCreditPost u p])
        /\ status r = 400)
  /\ (accepted Part000.verifyHmac Part000.extractPhoneNumber w req data phone ->
      Part000.createNotificationMessage w (header req "x-shopify-topic") data
        = Normal none ->
      exists r u p,
        Part000.handler w req [] = (Normal r, [EvReadBody; EvJsonParse; EvCreditPost u p])
        /\ status r = 400).
Proof.
  intros Hcredit Hnumber Hquota Hnone.
  split; [ | split ]; intros Hacc Hmsg; open_accepted Hacc;
    enter_handler; use_facts; cbn [String.eqb Ascii.eqb Bool.eqb negb];
    run_pipeline;
    try (cbn in Hnumber; discriminate Hnumber);
    try (cbn in Hquota; discriminate Hquota);
    try congruence;
    do 3 eexists; split; reflexivity.
Qed.

(** Scenario A under a topic no table knows. *)
Lemma no_message_is_400_witness :
  exists r u p,
    Part000.handler Scenario.worldA Cases.unknown_topic []
    = (Normal r, [EvReadBody; EvJsonParse; EvCreditPost u p])
    /\ status r = 400.
Proof.
  apply (proj2 (proj2 (no_message_is_400 Scenario.worldA Cases.unknown_topic
                         Scenario.payload Scenario.phone (VNum 5) VUndefined
                         eq_refl eq_refl eq_refl eq_refl))).
  - split; [ repeat split | ].
    exists Scenario.rawBody. repeat split; vm_compute; reflexivity.
  - reflexivity.
Defined.

(** *** What the response says *)



(** The [sms_id] of a 200 response of api/index.js is the identifier in
    the gateway's answer, not the one the handler generated for its
    request; the handler file without a counter reports none. *)
Theorem sms_id_is_the_gateways (w : World) (req : Request) (r : Response)
    (evs : list event) :
  status r = 200 ->
  (ApiV1.handler w req [] = (Normal r, evs) ->
   exists data, sms_gateway w = Resolved data
                /\ get (json r) "sms_id" = get data "SMSID"
                /\ get (json r) "success" = VBool true
                /\ get (json r) "message" = VStr "تم إرسال الرسالة بنجاح")
  /\ (ApiV2.handler w req [] = (Normal r, evs) ->
      exists data, sms_gateway w = Resolved data
                   /\ get (json r) "sms_id" = get data "SMSID"
                   /\ get (json r) "success" = VBool true)
  /\ (Part000.handler w req [] = (Normal r, evs) ->
      get (json r) "sms_id" = VUndefined
      /\ get (json r) "success" = VBool true
      /\ get (json r) "message" = VStr "SMS sent successfully").
Proof.
  intros Hok.
  split; [ | split ]; enter_handler; run_deep;
    intros Hrun; inversion Hrun; subst; clear Hrun;
    cbn in Hok; try discriminate Hok;
    first [ eexists; split; [ reflexivity | ]; repeat split
          | repeat split ].
Qed.

(** Scenario A in the first document of api/index.js. *)
Lemma sms_id_is_the_gateways_witness :
  exists data,
    sms_gateway Scenario.worldA = Resolved data
    /\ get (VObj [ ("success", VBool true);
                   ("message", VStr "تم إرسال الرسالة بنجاح");
                   ("remaining_quota", VNum 4);
                   ("sms_id", VStr "SMS-000417") ]) "sms_id" = get data "SMSID"
    /\ get (VObj [ ("success", VBool true);
                   ("message", VStr "تم إرسال الرسالة بنجاح");
                   ("remaining_quota", VNum 4);
                   ("sms_id", VStr "SMS-000417") ]) "success" = VBool true
    /\ get (VObj [ ("success", VBool true);
                   ("message", VStr "تم إرسال الرسالة بنجاح");
                   ("remaining_quota", VNum 4);
                   ("sms_id", VStr "SMS-000417") ]) "message"
       = VStr "تم إرسال الرسالة بنجاح".
Proof.
  apply (proj1 (sms_id_is_the_gateways Scenario.worldA Scenario.requestA
                  (respond 200 [ ("success", VBool true);
                                 ("message", VStr "تم إرسال الرسالة بنجاح");
                                 ("remaining_quota", VNum 4);
                                 ("sms_id", VStr "SMS-000417") ])
                  (EvReadBody :: calls_after_parsing Scenario.worldA Scenario.phone
                     (VStr "📦 تم تأكيد طلبك #1001! شكراً لثقتك"))
                  eq_refl)).
  vm_compute. reflexivity.
Defined.

(** *** What a failure tells the caller *)



(** When the credit service cannot be reached, an accepted request is
    answered 500 and nothing is sent.  The first document of api/index.js
    answers with its fixed text; the second document and index.js hand
    the transport error to the caller as it is, the handler file without a
    counter behind its own prefix.  index.js leaves its counter alone. *)
Theorem credit_failure_forwarded (w : World) (req : Request) (data phone : value)
    (m : string) :
  credit_service w = Rejected m ->
  (accepted ApiV1.verifyHmac ApiV1.extractPhoneNumber w req data phone ->
   exists r evs, ApiV1.handler w req [] = (Normal r, evs)
                 /\ status r = 500 /\ dispatches evs = []
                 /\ get (json r) "details" = VStr "فشل التحقق من الرصيد")
  /\ (accepted ApiV2.verifyHmac ApiV2.extractPhoneNumber w req data phone ->
      exists r evs, ApiV2.handler w req [] = (Normal r, evs)
                    /\ status r = 500 /\ dispatches evs = []
                    /\ get (json r) "message" = VStr m)
  /\ (accepted Part000.verifyHmac Part000.extractPhoneNumber w req data phone ->
      exists r evs, Part000.handler w req [] = (Normal r, evs)
                    /\ status r = 500 /\ dispatches evs = []
                    /\ get (json r) "details" = VStr ("فشل التحقق من الرصيد: " ++ m))
  /\ (forall hp s,
        accepted_by_counter hp w req data phone ->
        exists r s', Counter.handler hp w req s = (Normal r, s')
                     /\ status r = 500
                     /\ Counter.sentCount s' = Counter.sentCount s
                     /\ dispatches (Counter.trace s') = dispatches (Counter.trace s)
                     /\ get (json r) "details" = VStr m).
Proof.
  intros Hcredit.
  split; [ | split; [ | split; [ | intros hp s ] ] ]; intros Hacc;
    open_accepted Hacc; enter_handler; use_facts;
    cbn [String.eqb Ascii.eqb Bool.eqb negb]; run_pipeline;
    do 2 eexists; (split; [ reflexivity | ]);
    cbn [Counter.sentCount Counter.trace];
    rewrite ?dispatches_app; cbn [dispatches flat_map app]; rewrite ?app_nil_r;
    repeat split.
Qed.

(** Scenario A when the credit service refuses the connection. *)
Lemma credit_failure_forwarded_witness :
  exists r evs, ApiV2.handler Scenario.world_down Scenario.requestA [] = (Normal r, evs)
                /\ status r = 500 /\ dispatches evs = []
                /\ get (json r) "message" = VStr "connect ECONNREFUSED".
Proof.
  apply (proj1 (proj2 (credit_failure_forwarded Scenario.world_down Scenario.requestA
                         Scenario.payload Scenario.phone "connect ECONNREFUSED"
                         eq_refl))).
  apply requestA_accepted_v2.
Defined.

(** After a call to the gateway, a 500 response of the second document
    of api/index.js and of the handler file without a counter tells the
    caller what went wrong at the gateway: the transport error as it is,
    or a fixed text, resp. the gateway's answer behind a prefix. *)
Theorem gateway_failure_details (w : World) (req : Request) (r : Response)
    (evs : list event) :
  status r = 500 ->
  (ApiV2.handler w req [] = (Normal r, evs) ->
   forall p, In p (dispatches evs) ->
   match sms_gateway w with
   | Rejected m => get (json r) "message" = VStr m
   | Resolved _ => get (json r) "message" = VStr "SMS sending failed"
   end)
  /\ (Part000.handler w req [] = (Normal r, evs) ->
      forall p, In p (dispatches evs) ->
      match sms_gateway w with
      | Rejected m => get (json r) "details" = VStr m
      | Resolved data =>
          get (json r) "details" = VStr ("فشل إرسال الرسالة: " ++ JSON_stringify w data)
      end).
Proof.
  intros Hstatus.
  split; enter_handler; run_pipeline;
    intros Hrun sent Hsent; inversion Hrun; subst; clear Hrun;
    cbn in Hsent; try contradiction; cbn in Hstatus; try discriminate Hstatus;
    try reflexivity.
  all: exfalso; impossible_throw.
Qed.

(** Scenario A when the gateway answers [Status: "Failed"]. *)
Lemma gateway_failure_details_witness :
  get (VObj [ ("error", VStr "Internal Server Error");
              ("details", VStr ("فشل إرسال الرسالة: {" ++ Scenario.dq ++ "Status"
                                ++ Scenario.dq ++ ":" ++ Scenario.dq ++ "Failed"
                                ++ Scenario.dq ++ "}")) ]) "details"
  = VStr ("فشل إرسال الرسالة: " ++ JSON_stringify Cases.world_refused Cases.refused).
Proof.
  apply (proj2 (gateway_failure_details Cases.world_refused Scenario.requestA
                  (respond 500
                     [ ("error", VStr "Internal Server Error");
                       ("details", VStr ("فشل إرسال الرسالة: {" ++ Scenario.dq ++ "Status"
                                         ++ Scenario.dq ++ ":" ++ Scenario.dq ++ "Failed"
                                         ++ Scenario.dq ++ "}")) ])
                  (EvReadBody :: calls_after_parsing Cases.world_refused Scenario.phone
                     (VStr "📦 تم تأكيد طلبك #1001! شكراً لاختيارك متجرنا"))
                  eq_refl)
           ltac:(vm_compute; reflexivity)
           (sms_payload Cases.world_refused Scenario.phone
              (VStr "📦 تم تأكيد طلبك #1001! شكراً لاختيارك متجرنا"))
           ltac:(vm_compute; auto)).
Defined.

(** The first document of api/index.js adds the stack of the error to a
    response only when it answers 500 with [NODE_ENV] set to
    [development]; the other handlers never do. *)
Theorem stack_only_in_development (w : World) (req : Request) :
  (forall r evs,
     ApiV1.handler w req [] = (Normal r, evs) ->
     (is_string (env_value w "NODE_ENV") "development" = false ->
      get (json r) "stack" = VUndefined)
     /\ (status r = 500 ->
         is_string (env_value w "NODE_ENV") "development" = true ->
         exists e, get (json r) "stack" = VStr (stack w e)
                   /\ get (json r) "details" = VStr (message e)))
  /\ (forall r evs,
        ApiV2.handler w req [] = (Normal r, evs) -> get (json r) "stack" = VUndefined)
  /\ (forall r evs,
        Part000.handler w req [] = (Normal r, evs) -> get (json r) "stack" = VUndefined).
Proof.
  split; [ | split ]; intros r evs; enter_handler; run_pipeline;
    intros Hrun; inversion Hrun; subst; clear Hrun;
    try reflexivity;
    (split; [ intros Hdev; try discriminate Hdev; reflexivity
            | intros Hstatus Hdev; try discriminate Hstatus; try discriminate Hdev;
              eexists; split; reflexivity ]).
Qed.

(** Scenario A on a development machine whose credit service is down. *)
Lemma stack_only_in_development_witness :
  exists e,
    get (VObj [ ("error", VStr "خطأ داخلي");
                ("details", VStr "فشل التحقق من الرصيد");
                ("stack", VStr "Error: فشل التحقق من الرصيد") ]) "stack"
    = VStr (stack Cases.world_development e)
    /\ get (VObj [ ("error", VStr "خطأ داخلي");
                   ("details", VStr "فشل التحقق من الرصيد");
                   ("stack", VStr "Error: فشل التحقق من الرصيد") ]) "details"
       = VStr (message e).
Proof.
  apply (proj2 (proj1 (stack_only_in_development Cases.world_development
                         Scenario.requestA)
                  (respond 500 [ ("error", VStr "خطأ داخلي");
                                 ("details", VStr "فشل التحقق من الرصيد");
                                 ("stack", VStr "Error: فشل التحقق من الرصيد") ])
                  [ EvReadBody; EvJsonParse;
                    EvCreditPost (VStr "store") (VStr "s3cret") ]
                  ltac:(vm_compute; reflexivity))
           eq_refl eq_refl).
Defined.

(** *** The session counter of index.js *)

(** One request of index.js moves the counter by one exactly when it is
    answered 200, and a 200 response reports the counter and what is left
    of the session quota. *)
Lemma handler_counts (hp : Counter.Helpers) (w : World) (req : Request) (s : Counter.St) :
  exists r s',
    Counter.handler hp w req s = (Normal r, s')
    /\ Counter.sentCount s' = Counter.sentCount s + (if status r =? 200 then 1 else 0)
    /\ (status r = 200 ->
        get (get (json r) "quota") "sent" = VNum (Counter.sentCount s')
        /\ get (get (json r) "quota") "remaining"
           = VNum (Counter.MAX_QUOTA - Counter.sentCount s')
        /\ Counter.sentCount s < Counter.MAX_QUOTA).
Proof.
  destruct s as [n tr].
  enter_handler. run_pipeline.
  all: do 2 eexists; (split; [ reflexivity | ]); cbn [Counter.sentCount Counter.trace].
  all: split; [ cbn; lia | ].
  all: intros Hok; try discriminate Hok.
  all: split; [ reflexivity | split; [ reflexivity | apply Z.leb_gt; assumption ] ].
Qed.

Lemma serve_counts (hp : Counter.Helpers) (reqs : list (World * Request)) :
  forall s,
    Counter.sentCount (snd (Counter.serve hp reqs s))
    = Counter.sentCount s + count_200 (fst (Counter.serve hp reqs s))
    /\ List.length (fst (Counter.serve hp reqs s)) = List.length reqs.
Proof.
  induction reqs as [ | [w req] rest IH]; intros s.
  - cbn. split; [ lia | reflexivity ].
  - cbn [Counter.serve].
    destruct (handler_counts hp w req s) as [r [s1 [Hrun [Hcount _]]]].
    rewrite Hrun. specialize (IH s1).
    destruct (Counter.serve hp rest s1) as [rs s2]. cbn [fst snd] in *.
    destruct IH as [IH Hlen].
    split; [ | cbn [List.length]; rewrite Hlen; reflexivity ].
    rewrite IH, Hcount. unfold count_200. cbn [filter].
    destruct (status r =? 200); cbn [List.length]; lia.
Qed.

(** After any sequence of requests from the start of the process, the
    counter is the number of requests that were answered 200; there are
    never more than [MAX_QUOTA] of them, and every request was answered. *)
Theorem successes_are_counted (hp : Counter.Helpers) (reqs : list (World * Request)) :
  Counter.sentCount (snd (Counter.serve hp reqs Counter.initial))
  = count_200 (fst (Counter.serve hp reqs Counter.initial))
  /\ count_200 (fst (Counter.serve hp reqs Counter.initial)) <= Counter.MAX_QUOTA
  /\ List.length (fst (Counter.serve hp reqs Counter.initial)) = List.length reqs.
Proof.
  destruct (serve_counts hp reqs Counter.initial) as [Hcount Hlen].
  cbn [Counter.initial Counter.sentCount] in Hcount.
  split; [ rewrite Hcount; lia | ].
  split; [ | exact Hlen ].
  pose proof (serve_keeps_bounds hp reqs Counter.initial) as Hbounds.
  rewrite Hcount in Hbounds. cbn [Counter.initial Counter.sentCount] in Hbounds.
  unfold Counter.MAX_QUOTA in *. lia.
Qed.



(** index.js as it stands, with the four helpers it calls and does not
    define: whatever requests arrive, none is answered 200, the counter
    and the trace stay as they were, and every well-formed request is
    answered 500 with [getRawBody is not defined]. *)
Lemma undefined_helpers_step (w : World) (req : Request) (s : Counter.St) :
  exists r,
    Counter.handler Scenario.undefined_helpers w req s = (Normal r, s)
    /\ existsb (Z.eqb (status r)) [401; 405; 500] = true.
Proof.
  enter_handler. cbn [Scenario.undefined_helpers Counter.getRawBody]. run_pipeline;
    eexists; split; reflexivity.
Qed.

(** index.js as it stands never sends anything. *)
Theorem as_written_never_sends (reqs : list (World * Request)) (s : Counter.St) :
  snd (Counter.serve Scenario.undefined_helpers reqs s) = s
  /\ count_200 (fst (Counter.serve Scenario.undefined_helpers reqs s)) = 0
  /\ forall w req,
       well_formed req ->
       Counter.handler Scenario.undefined_helpers w req s
       = (Normal (respond 500 [ ("error", VStr "Internal Server Error");
                                ("details", VStr "getRawBody is not defined") ]), s).
Proof.
  split; [ | split ].
  - induction reqs as [ | [w req] rest IH]; [ reflexivity | ].
    cbn [Counter.serve].
    destruct (undefined_helpers_step w req s) as [r [Hrun _]]. rewrite Hrun.
    destruct (Counter.serve Scenario.undefined_helpers rest s) as [rs s2].
    exact IH.
  - induction reqs as [ | [w req] rest IH]; [ reflexivity | ].
    cbn [Counter.serve].
    destruct (undefined_helpers_step w req s) as [r [Hrun Hstatus]]. rewrite Hrun.
    destruct (Counter.serve Scenario.undefined_helpers rest s) as [rs s2].
    cbn [fst] in *. unfold count_200 in *. cbn [filter].
    destruct (status r =? 200) eqn:H200; [ | exact IH ].
    apply Z.eqb_eq in H200. rewrite H200 in Hstatus. discriminate Hstatus.
  - intros w req [Hmethod [Htopic [Hdomain Hhmac]]].
    enter_handler. cbn [Scenario.undefined_helpers Counter.getRawBody].
    use_facts. reflexivity.
Qed.
